(** * impedance.py: the model facade (circuits.py) and model_io.py

    A shallow embedding of [BaseCircuit], [Randles], [CustomCircuit],
    [model_export] and [model_import].  Python objects live in a store
    indexed by references, exceptions are values of [exn], and every
    method is a state-and-error computation over a [world]. *)

From Stdlib Require Import ZArith Ascii DecimalString Floats.
From stdpp Require Import base strings list gmap.

Local Open Scope Z_scope.
Local Open Scope nat_scope.

(** ** Python [str] methods used by the sources *)

Module PyString.

(** [s.replace(old, new)] for a one-character [old], which is the only
    shape circuits.py uses. *)
Fixpoint replace (old : ascii) (new : string) (s : string) : string :=
  match s with
  | EmptyString => EmptyString
  | String c s' =>
      if Ascii.eqb c old then new +:+ replace old new s'
      else String c (replace old new s')
  end.

(** [s.split(sep)] for a one-character [sep]: one piece more than there
    are separators, so the result is never empty. *)
Fixpoint split (sep : ascii) (s : string) : list string :=
  match s with
  | EmptyString => [EmptyString]
  | String c s' =>
      if Ascii.eqb c sep then EmptyString :: split sep s'
      else match split sep s' with
           | piece :: rest => String c piece :: rest
           | [] => [String c EmptyString]
           end
  end.

(** [sep.join(l)] *)
Fixpoint join (sep : string) (l : list string) : string :=
  match l with
  | [] => EmptyString
  | [a] => a
  | a :: rest => a +:+ sep +:+ join sep rest
  end.

End PyString.

(** ** Exceptions *)

Inductive exn : Type :=
| AssertionError (msg : string)
| ValueError (msg : string)
| TypeError (msg : string)
| IndexError (msg : string)
| AttributeError (msg : string)
| FileNotFoundError (path : string)
| JSONDecodeError
| ReferenceError            (* the reference names no live object *)
| ConfigurationError (msg : string)  (* raised by the fitting module *)
| FitFailure (msg : string)          (* raised by the fitting module *)
| OverflowError (msg : string).

(** [fmt % arg] for a [str] argument.  Only the conversions [%s] and [%%]
    occur in the sources; a format that leaves the argument unused raises,
    as does one that asks for a second argument. *)
Fixpoint percent_format (fmt : string) (arg : option string) : exn + string :=
  match fmt with
  | EmptyString =>
      match arg with
      | Some _ => inl (TypeError "not all arguments converted during string formatting")
      | None => inr EmptyString
      end
  | String "%" (String "s" rest) =>
      match arg with
      | Some a =>
          match percent_format rest None with
          | inr out => inr (a +:+ out)
          | inl e => inl e
          end
      | None => inl (TypeError "not enough arguments for format string")
      end
  | String "%" (String "%" rest) =>
      match percent_format rest arg with
      | inr out => inr (String "%" out)
      | inl e => inl e
      end
  | String "%" _ => inl (ValueError "unsupported format character")
  | String c rest =>
      match percent_format rest arg with
      | inr out => inr (String c out)
      | inl e => inl e
      end
  end.

(** ** Python and NumPy values *)

(** A scalar carries its class and its payload.  Floats are IEEE doubles;
    the facade never computes with them, it only moves them around. *)
Inductive scalar : Type :=
| PyInt (z : Z)
| PyFloat (x : float)
| PyBool (b : bool)
| PyComplex (re im : float)
| PyStr (s : string)
| NpInt32 (z : Z)
| NpInt64 (z : Z)
| NpFloat32 (x : float)
| NpFloat64 (x : float)
| NpComplex128 (re im : float).

(** What a caller may pass where an array is expected. *)
Inductive pyobj : Type :=
| PyNone
| PyList (l : list scalar)
| NdArray (a : list scalar)
| Scalar (v : scalar).

(** [isinstance(v, (float, int, np.int32, np.float64))]; [bool] is a
    subclass of [int] and [np.float64] one of [float]. *)
Definition is_number (v : scalar) : bool :=
  match v with
  | PyInt _ | PyFloat _ | PyBool _ | NpInt32 _ | NpFloat64 _ => true
  | _ => false
  end.

(** [isinstance(v, (complex, np.complex128))] *)
Definition is_complex (v : scalar) : bool :=
  match v with
  | PyComplex _ _ | NpComplex128 _ _ => true
  | _ => false
  end.

(** [isinstance(o, np.ndarray)] *)
Definition is_ndarray (o : pyobj) : bool :=
  match o with NdArray _ => true | _ => false end.

(** [a.tolist()]: NumPy scalars become the nearest built-in class. *)
Definition to_python (v : scalar) : scalar :=
  match v with
  | NpInt32 z | NpInt64 z => PyInt z
  | NpFloat32 x | NpFloat64 x => PyFloat x
  | NpComplex128 re im => PyComplex re im
  | _ => v
  end.

Definition tolist (a : list scalar) : list scalar := to_python <$> a.

(** [np.array(l)] on a list of one numeric class; the promotion of mixed
    lists is not modelled. *)
Definition to_numpy (v : scalar) : scalar :=
  match v with
  | PyInt z => NpInt64 z
  | PyFloat x => NpFloat64 x
  | PyComplex re im => NpComplex128 re im
  | _ => v
  end.

Definition np_array (l : list scalar) : list scalar := to_numpy <$> l.

(** [seq[index]] where [seq] may be [None]. *)
Definition getitem (seq : option (list scalar)) (index : nat) : exn + scalar :=
  match seq with
  | None => inl (TypeError "'NoneType' object is not subscriptable")
  | Some l =>
      match l !! index with
      | Some v => inr v
      | None => inl (IndexError "index out of range")
      end
  end.

(** [[(name, seq[index]) for index, name in enumerate(names)]], with
    [index] the position of the head of [names]. *)
Fixpoint enumerate_pairs (names : list string) (index : nat)
    (seq : option (list scalar)) : exn + list (string * scalar) :=
  match names with
  | [] => inr []
  | name :: rest =>
      match getitem seq index with
      | inl e => inl e
      | inr v =>
          match enumerate_pairs rest (S index) seq with
          | inl e => inl e
          | inr tl => inr ((name, v) :: tl)
          end
      end
  end.

(** ** Model objects, the store and the outside world *)

Definition loc : Type := nat.

Record model : Type := Model {
  circuit : option string;            (* [None]: the attribute is not set *)
  name : option string;
  initial_guess : option (list scalar);
  algorithm : string;
  bounds : pyobj;
  parameters_ : option (list scalar);
  conf_ : option (list scalar)
}.

Definition set_circuit (c : string) (m : model) : model :=
  Model (Some c) (name m) (initial_guess m) (algorithm m) (bounds m)
        (parameters_ m) (conf_ m).
Definition set_name (n : option string) (m : model) : model :=
  Model (circuit m) n (initial_guess m) (algorithm m) (bounds m)
        (parameters_ m) (conf_ m).
Definition set_parameters_ (p : option (list scalar)) (m : model) : model :=
  Model (circuit m) (name m) (initial_guess m) (algorithm m) (bounds m)
        p (conf_ m).
Definition set_conf_ (c : option (list scalar)) (m : model) : model :=
  Model (circuit m) (name m) (initial_guess m) (algorithm m) (bounds m)
        (parameters_ m) c.

(** The dictionary [model_export] dumps, as [json.load] reads it back. *)
Record export_doc : Type := ExportDoc {
  doc_name : string;
  doc_circuit_string : string;
  doc_initial_guess : list (string * scalar);
  doc_parameters : list (string * scalar);
  doc_confidence : list (string * scalar)
}.

Inductive file : Type :=
| JsonFile (d : export_doc)
| PartialFile.               (* opened for writing, dump not completed *)

(** Calls into the fitting module. *)
Inductive call : Type :=
| CircuitFit (frequencies impedance : pyobj) (circuit : string)
    (initial_guess : list scalar) (algorithm : string) (bounds : pyobj)
| ComputeCircuit (circuit : string) (parameters : option (list scalar))
    (frequencies : list scalar).

(** What [print] receives. *)
Inductive output : Type :=
| Line (s : string)
| ModelStr (m : model)
| ListRepr (l : list scalar).

Record world : Type := World {
  heap : gmap loc model;
  files : gmap string file;
  calls : list call;
  stdout : list output
}.

(** ** Computations that may raise *)

Definition M (A : Type) : Type := world → (exn + A) * world.

Definition ret {A} (a : A) : M A := λ w, (inr a, w).
Definition raise {A} (e : exn) : M A := λ w, (inl e, w).
Definition bind {A B} (c : M A) (k : A → M B) : M B :=
  λ w, match c w with
       | (inl e, w') => (inl e, w')
       | (inr a, w') => k a w'
       end.
Definition lift {A} (r : exn + A) : M A := λ w, (r, w).

Declare Scope py_scope.
Delimit Scope py_scope with py.
Notation "x <- c ;; k" := (bind c (λ x, k))
  (at level 100, c at next level, right associativity) : py_scope.
Notation "c ;; k" := (bind c (λ _, k))
  (at level 100, right associativity) : py_scope.
Local Open Scope py_scope.

Definition assert (b : bool) (msg : string) : M unit :=
  if b then ret tt else raise (AssertionError msg).

Definition print (o : output) : M unit :=
  λ w, (inr tt, World (heap w) (files w) (calls w) (stdout w ++ [o])).

Definition record_call (c : call) : M unit :=
  λ w, (inr tt, World (heap w) (files w) (calls w ++ [c]) (stdout w)).

Definition deref (self : loc) : M model :=
  λ w, match heap w !! self with
       | Some m => (inr m, w)
       | None => (inl ReferenceError, w)
       end.

Definition update (self : loc) (f : model → model) : M unit :=
  λ w, match heap w !! self with
       | Some m =>
           (inr tt, World (<[self := f m]> (heap w)) (files w) (calls w) (stdout w))
       | None => (inl ReferenceError, w)
       end.

Definition allocate (m : model) : M loc :=
  λ w, let l := fresh (dom (heap w)) in
       (inr l, World (<[l := m]> (heap w)) (files w) (calls w) (stdout w)).

(** [open(path, 'w')] and the writes that follow; every path can be
    opened for writing. *)
Definition write_file (path : string) (f : file) : M unit :=
  λ w, (inr tt, World (heap w) (<[path := f]> (files w)) (calls w) (stdout w)).

(** [open(path, 'r')] *)
Definition read_file (path : string) : M file :=
  λ w, match files w !! path with
       | Some f => (inr f, w)
       | None => (inl (FileNotFoundError path), w)
       end.

(** [self.circuit] *)
Definition get_circuit (self : loc) : M string :=
  m <- deref self ;;
  match circuit m with
  | Some c => ret c
  | None => raise (AttributeError "object has no attribute 'circuit'")
  end.

(** [self.initial_guess] *)
Definition get_initial_guess (self : loc) : M (option (list scalar)) :=
  m <- deref self ;;
  ret (initial_guess m).

(** [len(o)] *)
Definition len (o : option (list scalar)) : exn + nat :=
  match o with
  | Some l => inr (length l)
  | None => inl (TypeError "object of type 'NoneType' has no len()")
  end.

(** [o[0]] *)
Definition first (o : pyobj) : exn + scalar :=
  match o with
  | NdArray (v :: _) => inr v
  | NdArray [] => inl (IndexError "index 0 is out of bounds for axis 0 with size 0")
  | PyList (v :: _) => inr v
  | PyList [] => inl (IndexError "list index out of range")
  | PyNone => inl (TypeError "'NoneType' object is not subscriptable")
  | Scalar _ => inl (TypeError "object is not subscriptable")
  end.

(** [len(o)] for an argument of [fit] *)
Definition size (o : pyobj) : exn + nat :=
  match o with
  | NdArray a => inr (length a)
  | PyList l => inr (length l)
  | PyNone => inl (TypeError "object of type 'NoneType' has no len()")
  | Scalar _ => inl (TypeError "object has no len()")
  end.

(** [o.tolist()] *)
Definition ndarray_tolist (o : pyobj) : exn + list scalar :=
  match o with
  | NdArray a => inr (tolist a)
  | _ => inl (AttributeError "object has no attribute 'tolist'")
  end.

(** The integers that convert to a double: those that round, half to
    even, to a magnitude below [2^1024]. *)
Definition fits_double (z : Z) : bool :=
  (Z.abs z <? 2 ^ 1024 - 2 ^ 970)%Z.

(** ['{:.2e}'.format(v)]: a [str] has no format code ['e']; an [int] is
    converted to a [float] first, which overflows beyond the range of a
    double; the other numeric classes are formatted as they are. *)
Definition format_2e (v : scalar) : exn + unit :=
  match v with
  | PyStr _ => inl (ValueError "Unknown format code 'e' for object of type 'str'")
  | PyInt z =>
      if fits_double z then inr tt
      else inl (OverflowError "int too large to convert to float")
  | _ => inr tt
  end.

Fixpoint format_all (l : list scalar) : exn + unit :=
  match l with
  | [] => inr tt
  | v :: rest =>
      match format_2e v with
      | inl e => inl e
      | inr _ => format_all rest
      end
  end.

(** ** The body of BaseCircuit.get_param_names (circuits.py, 125-132),
    as a function of [self.circuit] *)

Definition get_param_names (circuit : string) : list string :=
  let names :=
    PyString.replace ")" "" (PyString.replace "(" "" (PyString.replace "p" "" circuit)) in
  let names :=
    PyString.split "-" (PyString.replace "/" "-" (PyString.replace "," "-" names)) in
  names.

(** ** class BaseCircuit (circuits.py, 13-257) *)

Module BaseCircuit.
Section Methods.

(** The fitting module is imported, not defined, by circuits.py. *)
Variable circuit_fit :
  pyobj → pyobj → string → list scalar → string → pyobj →
  exn + (list scalar * option (list scalar)).
Variable computeCircuit :
  string → option (list scalar) → list scalar → exn + list scalar.

Fixpoint check_initial_guess (l : list scalar) : M unit :=
  match l with
  | [] => ret tt
  | i :: rest =>
      assert (is_number i) "value in initial_guess is not a number" ;;
      check_initial_guess rest
  end.

(** The object is created with [circuit] unset, [parameters_] and
    [conf_] set to [None]. *)
Definition __init__ (initial_guess : option (list scalar))
    (name : option string) (algorithm : string) (bounds : pyobj) : M loc :=
  match initial_guess with
  | Some l => check_initial_guess l
  | None => ret tt
  end ;;
  allocate (Model None name initial_guess algorithm bounds None None).

Definition fit (self : loc) (frequencies impedance : pyobj) : M loc :=
  assert (is_ndarray frequencies) "frequencies is not of type np.ndarray" ;;
  f0 <- lift (first frequencies) ;;
  assert (is_number f0) "frequencies does not contain a number" ;;
  assert (is_ndarray impedance) "impedance is not of type np.ndarray" ;;
  z0 <- lift (first impedance) ;;
  assert (is_complex z0) "impedance does not contain complex numbers" ;;
  nf <- lift (size frequencies) ;;
  nz <- lift (size impedance) ;;
  assert (nf =? nz) "mismatch in length of input frequencies and impedances" ;;
  m <- deref self ;;
  match initial_guess m with
  | Some guess =>
      c <- get_circuit self ;;
      record_call (CircuitFit frequencies impedance c guess (algorithm m) (bounds m)) ;;
      fitted <- lift (circuit_fit frequencies impedance c guess (algorithm m) (bounds m)) ;;
      let '(parameters, conf) := fitted in
      update self (set_parameters_ (Some parameters)) ;;
      match conf with
      | Some _ => update self (set_conf_ conf)
      | None => ret tt
      end
  | None => raise (ValueError "no initial guess supplied")
  end ;;
  ret self.

Definition _is_fit (self : loc) : M bool :=
  m <- deref self ;;
  match parameters_ m with
  | Some _ => ret true
  | None => ret false
  end.

Definition predict (self : loc) (frequencies : pyobj) (use_initial : bool)
    : M (list scalar) :=
  assert (is_ndarray frequencies) "frequencies is not of type np.ndarray" ;;
  f0 <- lift (first frequencies) ;;
  assert (is_number f0) "frequencies does not contain a number" ;;
  fitted <- _is_fit self ;;
  if fitted && negb use_initial then
    print (Line "Simulating circuit based on fitted parameters") ;;
    c <- get_circuit self ;;
    m <- deref self ;;
    p <- match parameters_ m with
         | Some a => ret (tolist a)
         | None => raise (AttributeError "'NoneType' object has no attribute 'tolist'")
         end ;;
    fs <- lift (ndarray_tolist frequencies) ;;
    record_call (ComputeCircuit c (Some p) fs) ;;
    lift (computeCircuit c (Some p) fs)
  else
    print (Line "Simulating circuit based on initial parameters") ;;
    c <- get_circuit self ;;
    m <- deref self ;;
    fs <- lift (ndarray_tolist frequencies) ;;
    record_call (ComputeCircuit c (initial_guess m) fs) ;;
    lift (computeCircuit c (initial_guess m) fs).

Definition get_param_names (self : loc) : M (list string) :=
  c <- get_circuit self ;;
  ret (get_param_names c).

(** [zip] stops at the shortest of its arguments; each parameter it
    yields is formatted with ['{:.2e}']. *)
Definition __str__ (self : loc) : M output :=
  names <- get_param_names self ;;
  m <- deref self ;;
  fitted <- _is_fit self ;;
  (if fitted then
     match parameters_ m, conf_ m with
     | Some p, Some cf =>
         lift (format_all (take (length names `min` length cf) p))
     | _, _ => raise (TypeError "'NoneType' object is not iterable")
     end
   else
     match initial_guess m with
     | Some g => lift (format_all (take (length names) g))
     | None => raise (TypeError "'NoneType' object is not iterable")
     end) ;;
  ret (ModelStr m).

End Methods.
End BaseCircuit.

(** ** class Randles (circuits.py, 260-283) *)

Module Randles.
Section Methods.

Variable calculateCircuitLength : string → exn + nat.

Definition __init__ (CPE : bool) (initial_guess : option (list scalar))
    (name : option string) (algorithm : string) (bounds : pyobj) : M loc :=
  self <- BaseCircuit.__init__ initial_guess name algorithm bounds ;;
  (if CPE then
     update self (set_name (Some "Randles w/ CPE")) ;;
     update self (set_circuit "R_0-p(R_1,E_1/E_2)-W_1/W_2") ;;
     c <- get_circuit self ;;
     circuit_length <- lift (calculateCircuitLength c) ;;
     guess <- get_initial_guess self ;;
     n <- lift (len guess) ;;
     assert (n =? circuit_length)
       "Initial guess length needs to be equal to parameter length"
   else
     update self (set_name (Some "Randles")) ;;
     update self (set_circuit "R_0-p(R_1,C_1)-W_1/W_2") ;;
     c <- get_circuit self ;;
     circuit_length <- lift (calculateCircuitLength c) ;;
     guess <- get_initial_guess self ;;
     n <- lift (len guess) ;;
     assert (n =? circuit_length)
       "Initial guess length needs to be equal to parameter length") ;;
  ret self.

End Methods.
End Randles.

(** ** class CustomCircuit (circuits.py, 286-316) *)

Module CustomCircuit.
Section Methods.

Variable calculateCircuitLength : string → exn + nat.

Definition __init__ (circuit : string) (initial_guess : option (list scalar))
    (name : option string) (algorithm : string) (bounds : pyobj) : M loc :=
  self <- BaseCircuit.__init__ initial_guess name algorithm bounds ;;
  update self (set_circuit circuit) ;;
  c <- get_circuit self ;;
  circuit_length <- lift (calculateCircuitLength c) ;;
  guess <- get_initial_guess self ;;
  n <- lift (len guess) ;;
  assert (n =? circuit_length)
    "Initial guess length needs to be equal to {circuit_length}" ;;
  ret self.

End Methods.
End CustomCircuit.

(** ** model_io.py *)

(** What [json.load] reads back for a scalar that [json.dump] wrote.
    [np.float64] is a subclass of [float] and is written as one; the other
    NumPy classes and [complex] are not serializable. *)
Definition json_scalar (v : scalar) : exn + scalar :=
  match v with
  | PyInt z => inr (PyInt z)
  | PyFloat x | NpFloat64 x => inr (PyFloat x)
  | PyBool b => inr (PyBool b)
  | PyStr s => inr (PyStr s)
  | _ => inl (TypeError "Object is not JSON serializable")
  end.

(** A list of [(name, value)] tuples is written as a list of two-element
    lists. *)
Fixpoint json_pairs (l : list (string * scalar)) : exn + list (string * scalar) :=
  match l with
  | [] => inr []
  | (n, v) :: rest =>
      match json_scalar v with
      | inl e => inl e
      | inr v' =>
          match json_pairs rest with
          | inl e => inl e
          | inr rest' => inr ((n, v') :: rest')
          end
      end
  end.

(** [json.dump(data_dict, destination_object)], key by key. *)
Definition json_dump (model_name model_string : string)
    (model_initial_guess model_params model_conf : list (string * scalar))
    : exn + export_doc :=
  match json_pairs model_initial_guess with
  | inl e => inl e
  | inr ig =>
      match json_pairs model_params with
      | inl e => inl e
      | inr ps =>
          match json_pairs model_conf with
          | inl e => inl e
          | inr cf => inr (ExportDoc model_name model_string ig ps cf)
          end
      end
  end.

Module ModelIO.
Section Functions.

Variable calculateCircuitLength : string → exn + nat.

(** model_io.py, lines 6-47 *)
Definition model_export (model : loc) (filepath : string) : M unit :=
  model_string <- get_circuit model ;;
  m <- deref model ;;
  let model_name := name m in
  model_param_names <- BaseCircuit.get_param_names model ;;
  model_initial_guess <-
    lift (enumerate_pairs model_param_names 0 (initial_guess m)) ;;
  model_params <-
    lift (enumerate_pairs model_param_names 0 (parameters_ m)) ;;
  model_conf <-
    lift (enumerate_pairs model_param_names 0 (conf_ m)) ;;
  let model_name :=
    match model_name with
    | None => "None"
    | Some n => if String.eqb n "" then "None" else n
    end in
  banner <- lift (percent_format
                    "Exporting the following model to destination %s"
                    (Some filepath)) ;;
  print (Line banner) ;;
  shown <- BaseCircuit.__str__ model ;;
  print shown ;;
  write_file filepath PartialFile ;;
  data <- lift (json_dump model_name model_string
                  model_initial_guess model_params model_conf) ;;
  write_file filepath (JsonFile data).

(** model_io.py, lines 50-103.  In the last [print], [%] binds tighter
    than [+]: the second literal alone is formatted with [filepath]. *)
Definition model_import (filepath : string) (as_initial_guess : bool) : M loc :=
  json_data_file <- read_file filepath ;;
  json_data <- match json_data_file with
               | JsonFile d => ret d
               | PartialFile => raise JSONDecodeError
               end ;;
  let circuit_name := doc_name json_data in
  let circuit_name :=
    if String.eqb circuit_name "None" then None else Some circuit_name in
  let circuit_string := doc_circuit_string json_data in
  let circuit_param_list := doc_parameters json_data in
  let circuit_ig_list := doc_initial_guess json_data in
  let circuit_conf_list := doc_initial_guess json_data in
  let circuit_params := snd <$> circuit_param_list in
  let circuit_initial_guess := snd <$> circuit_ig_list in
  let circuit_conf := snd <$> circuit_conf_list in
  print (ListRepr circuit_initial_guess) ;;
  circuit_model <-
    (if as_initial_guess then
       CustomCircuit.__init__ calculateCircuitLength circuit_string
         (Some circuit_params) circuit_name "leastsq" PyNone
     else
       circuit_model <-
         CustomCircuit.__init__ calculateCircuitLength circuit_string
           (Some circuit_initial_guess) circuit_name "leastsq" PyNone ;;
       update circuit_model (set_parameters_ (Some (np_array circuit_params))) ;;
       update circuit_model (set_conf_ (Some (np_array circuit_conf))) ;;
       ret circuit_model) ;;
  formatted <- lift (percent_format "the following circuit parameters"
                       (Some filepath)) ;;
  print (Line ("Imported model from %s with" +:+ formatted)) ;;
  shown <- BaseCircuit.__str__ circuit_model ;;
  print shown ;;
  ret circuit_model.

End Functions.
End ModelIO.

(** ** The circuit grammar and the fitting module, from the specification *)

Module Grammar.

(** Modelled from the spec: the Element Library is part of the fitting
    module, which is not among the sources.  Section 3 names the kinds
    R, C, E and W and gives their arities. *)
Inductive Kind : Type := R | C | E | W.

Definition arity (k : Kind) : nat :=
  match k with
  | R | C => 1
  | E | W => 2
  end.

Definition kind_letter (k : Kind) : ascii :=
  match k with
  | R => "R"
  | C => "C"
  | E => "E"
  | W => "W"
  end%char.

(** An element name token [<Kind>_<index>]. *)
Record token : Type := Token { tok_kind : Kind; tok_index : nat }.

Definition render_token (t : token) : string :=
  String (kind_letter (tok_kind t))
    (String "_" (NilEmpty.string_of_uint (Nat.to_uint (tok_index t)))).

(** Modelled from the spec: the Parsed Circuit Structure of section 3.
    A series holds one or more nodes joined by [-]; a node is an element,
    whose sub-parameter tokens are joined by [/], or a parallel group
    [p(..,..)] of two or more branches, each a series. *)
Inductive node : Type :=
| Element (t : token) (subs : list token)
| Parallel (b : series) (bs : branches)
with series : Type :=
| Single (n : node)
| Chain (n : node) (rest : series)
with branches : Type :=
| LastBranch (b : series)
| MoreBranches (b : series) (bs : branches).

Fixpoint render_node (n : node) : string :=
  match n with
  | Element t subs => PyString.join "/" (render_token <$> t :: subs)
  | Parallel b bs => "p(" +:+ render_series b +:+ "," +:+ render_branches bs +:+ ")"
  end
with render_series (s : series) : string :=
  match s with
  | Single n => render_node n
  | Chain n rest => render_node n +:+ "-" +:+ render_series rest
  end
with render_branches (bs : branches) : string :=
  match bs with
  | LastBranch b => render_series b
  | MoreBranches b rest => render_series b +:+ "," +:+ render_branches rest
  end.

(** The name tokens of a structure, left to right. *)
Fixpoint node_tokens (n : node) : list token :=
  match n with
  | Element t subs => t :: subs
  | Parallel b bs => series_tokens b ++ branches_tokens bs
  end
with series_tokens (s : series) : list token :=
  match s with
  | Single n => node_tokens n
  | Chain n rest => node_tokens n ++ series_tokens rest
  end
with branches_tokens (bs : branches) : list token :=
  match bs with
  | LastBranch b => series_tokens b
  | MoreBranches b rest => series_tokens b ++ branches_tokens rest
  end.

(** An element is well formed when it has one token per sub-parameter
    of its kind, all of that kind. *)
Definition element_ok (t : token) (subs : list token) : bool :=
  (S (length subs) =? arity (tok_kind t))
  && forallb (λ u, bool_decide (kind_letter (tok_kind u) = kind_letter (tok_kind t))) subs.

Fixpoint node_ok (n : node) : bool :=
  match n with
  | Element t subs => element_ok t subs
  | Parallel b bs => series_ok b && branches_ok bs
  end
with series_ok (s : series) : bool :=
  match s with
  | Single n => node_ok n
  | Chain n rest => node_ok n && series_ok rest
  end
with branches_ok (bs : branches) : bool :=
  match bs with
  | LastBranch b => series_ok b
  | MoreBranches b rest => series_ok b && branches_ok rest
  end.

(** Modelled from the spec: calculateCircuitLength is defined in the
    fitting module, which is not among the sources.  Section 4.2: the
    total parameter count is the sum of arities over all leaf elements
    found by a full structural walk, independent of nesting depth. *)
Fixpoint node_length (n : node) : nat :=
  match n with
  | Element t _ => arity (tok_kind t)
  | Parallel b bs => calculateCircuitLength b + branches_length bs
  end
with calculateCircuitLength (s : series) : nat :=
  match s with
  | Single n => node_length n
  | Chain n rest => node_length n + calculateCircuitLength rest
  end
with branches_length (bs : branches) : nat :=
  match bs with
  | LastBranch b => calculateCircuitLength b
  | MoreBranches b rest => calculateCircuitLength b + branches_length rest
  end.

Scheme node_mut := Induction for node Sort Prop
  with series_mut := Induction for series Sort Prop
  with branches_mut := Induction for branches Sort Prop.
Combined Scheme structure_mutind from node_mut, series_mut, branches_mut.

(** A valid circuit expression is the text of a well-formed structure. *)
Definition valid_expression (expr : string) (s : series) : Prop :=
  series_ok s = true ∧ expr = render_series s.

End Grammar.

Module Evaluator.
Section Evaluate.

Variable calculateCircuitLength : string → exn + nat.

(** The impedance of the circuit at one frequency: complex floating-point
    arithmetic, left abstract. *)
Variable impedance_at : string → list scalar → scalar → scalar.

(** Modelled from the spec: computeCircuit is defined in the fitting
    module, which is not among the sources.  Section 4.3: one complex
    value per input frequency; a parameter vector whose length differs
    from the expected count is a configuration error.  Section 4.5:
    prediction raises when no parameter vector is usable. *)
Definition computeCircuit (circuit : string) (parameters : option (list scalar))
    (frequencies : list scalar) : exn + list scalar :=
  match parameters with
  | None => inl (ConfigurationError "no parameter vector")
  | Some theta =>
      match calculateCircuitLength circuit with
      | inl e => inl e
      | inr n =>
          if length theta =? n
          then inr (impedance_at circuit theta <$> frequencies)
          else inl (ConfigurationError "parameter vector length mismatch")
      end
  end.

End Evaluate.
End Evaluator.

(** ** Auxiliary definitions for the proofs *)

(** The characters [get_param_names] removes or turns into separators. *)
Definition structural (c : ascii) : bool :=
  bool_decide (c ∈ ["p"; "("; ")"; ","; "/"; "-"]%char).

Fixpoint plain (s : string) : bool :=
  match s with
  | EmptyString => true
  | String c s' => negb (structural c) && plain s'
  end.

(** The five replacements of [get_param_names], before the split. *)
Definition strip (s : string) : string :=
  PyString.replace "/" "-" (PyString.replace "," "-"
    (PyString.replace ")" "" (PyString.replace "(" "" (PyString.replace "p" "" s)))).

(** The Randles circuit of the sources, as a structure. *)
Definition randles_structure : Grammar.series :=
  Grammar.Chain (Grammar.Element (Grammar.Token Grammar.R 0) [])
    (Grammar.Chain
       (Grammar.Parallel
          (Grammar.Single (Grammar.Element (Grammar.Token Grammar.R 1) []))
          (Grammar.LastBranch
             (Grammar.Single (Grammar.Element (Grammar.Token Grammar.C 1) []))))
       (Grammar.Single
          (Grammar.Element (Grammar.Token Grammar.W 1) [Grammar.Token Grammar.W 2]))).


(** The first check of [fit] that an input fails, if any. *)
Definition fit_input_error (frequencies impedance : pyobj) : option exn :=
  match frequencies with
  | NdArray [] => Some (IndexError "index 0 is out of bounds for axis 0 with size 0")
  | NdArray (f0 :: fa) =>
      if is_number f0 then
        match impedance with
        | NdArray [] =>
            Some (IndexError "index 0 is out of bounds for axis 0 with size 0")
        | NdArray (z0 :: za) =>
            if is_complex z0 then
              if length (f0 :: fa) =? length (z0 :: za) then None
              else Some (AssertionError
                           "mismatch in length of input frequencies and impedances")
            else Some (AssertionError "impedance does not contain complex numbers")
        | _ => Some (AssertionError "impedance is not of type np.ndarray")
        end
      else Some (AssertionError "frequencies does not contain a number")
  | _ => Some (AssertionError "frequencies is not of type np.ndarray")
  end.

(** The model after a fit that returned [parameters] and [conf]. *)
Definition store_fit (parameters : list scalar) (conf : option (list scalar))
    (m : model) : model :=
  match conf with
  | Some _ => set_conf_ conf (set_parameters_ (Some parameters) m)
  | None => set_parameters_ (Some parameters) m
  end.

Definition with_heap (h : gmap loc model) (w : world) : world :=
  World h (files w) (calls w) (stdout w).
Definition with_call (c : call) (w : world) : world :=
  World (heap w) (files w) (calls w ++ [c]) (stdout w).
Definition with_output (o : output) (w : world) : world :=
  World (heap w) (files w) (calls w) (stdout w ++ [o]).

(** Two scalars of one class; the elements of an array share theirs. *)
Definition same_class (u v : scalar) : bool :=
  match u, v with
  | PyInt _, PyInt _ | PyFloat _, PyFloat _ | PyBool _, PyBool _
  | PyComplex _ _, PyComplex _ _ | PyStr _, PyStr _
  | NpInt32 _, NpInt32 _ | NpInt64 _, NpInt64 _
  | NpFloat32 _, NpFloat32 _ | NpFloat64 _, NpFloat64 _
  | NpComplex128 _ _, NpComplex128 _ _ => true
  | _, _ => false
  end.

Definition one_dtype (a : list scalar) : Prop :=
  ∀ u v, u ∈ a → v ∈ a → same_class u v = true.

(** The inputs [fit] has to refuse. *)
Inductive invalid_fit_input (guess : option (list scalar))
    (frequencies impedance : pyobj) : Prop :=
| frequencies_not_array :
    is_ndarray frequencies = false → invalid_fit_input guess frequencies impedance
| impedance_not_array :
    is_ndarray impedance = false → invalid_fit_input guess frequencies impedance
| frequencies_empty :
    frequencies = NdArray [] → invalid_fit_input guess frequencies impedance
| impedance_empty :
    impedance = NdArray [] → invalid_fit_input guess frequencies impedance
| frequencies_wrong_type a v :
    frequencies = NdArray a → one_dtype a → v ∈ a → is_number v = false →
    invalid_fit_input guess frequencies impedance
| impedance_wrong_type a v :
    impedance = NdArray a → one_dtype a → v ∈ a → is_complex v = false →
    invalid_fit_input guess frequencies impedance
| length_mismatch a b :
    frequencies = NdArray a → impedance = NdArray b → length a ≠ length b →
    invalid_fit_input guess frequencies impedance
| no_initial_guess :
    guess = None → invalid_fit_input guess frequencies impedance.

(** A fitting engine that converges to its initial guess, with and without
    a covariance estimate. *)
Definition fit_with_covariance (frequencies impedance : pyobj) (circuit : string)
    (guess : list scalar) (algorithm : string) (bounds : pyobj)
    : exn + (list scalar * option (list scalar)) :=
  inr (np_array guess, Some ((λ _, NpFloat64 0) <$> guess)).

Definition fit_without_covariance (frequencies impedance : pyobj) (circuit : string)
    (guess : list scalar) (algorithm : string) (bounds : pyobj)
    : exn + (list scalar * option (list scalar)) :=
  inr (np_array guess, None).

(** A resistor model that was fitted once, and a data set for it. *)
Definition fitted_resistor : model :=
  Model (Some "R_0") (Some "resistor") (Some [PyFloat 7]) "leastsq" PyNone
        (Some [NpFloat64 5]) (Some [NpFloat64 0.5]).

Definition resistor_world : world := World {[ 0 := fitted_resistor ]} ∅ [] [].

Definition two_frequencies : pyobj := NdArray [NpFloat64 10; NpFloat64 100].
Definition two_impedances : pyobj :=
  NdArray [NpComplex128 7 0; NpComplex128 7 0].

(** The check of [BaseCircuit.__init__] on its [initial_guess]. *)
Definition numbers_only (guess : option (list scalar)) : bool :=
  match guess with
  | Some l => forallb is_number l
  | None => true
  end.

(** The circuit string and the name [Randles.__init__] assigns. *)
Definition randles_circuit (CPE : bool) : string :=
  if CPE then "R_0-p(R_1,E_1/E_2)-W_1/W_2" else "R_0-p(R_1,C_1)-W_1/W_2".
Definition randles_name (CPE : bool) : string :=
  if CPE then "Randles w/ CPE" else "Randles".

(** The outcome of a constructor that has created [m] and goes on to
    compare the length of its initial guess with the circuit length. *)
Definition checked_construction (calculateCircuitLength : string → exn + nat)
    (msg : string) (c : string) (m : model) (w : world) : (exn + loc) * world :=
  let self := fresh (dom (heap w)) in
  let w' := with_heap (<[self := m]> (heap w)) w in
  match calculateCircuitLength c with
  | inl e => (inl e, w')
  | inr circuit_length =>
      match initial_guess m with
      | None => (inl (TypeError "object of type 'NoneType' has no len()"), w')
      | Some g =>
          if length g =? circuit_length then (inr self, w')
          else (inl (AssertionError msg), w')
      end
  end.

(** A stand-in for calculateCircuitLength that counts the name tokens. *)
Definition count_names (c : string) : exn + nat :=
  inr (length (get_param_names c)).

(** The parameter vector [predict] hands to the Evaluator. *)
Definition chosen_parameters (m : model) (use_initial : bool)
    : option (list scalar) :=
  match parameters_ m with
  | Some p => if use_initial then initial_guess m else Some (tolist p)
  | None => initial_guess m
  end.

(** The line [predict] prints before it calls the Evaluator. *)
Definition predict_banner (m : model) (use_initial : bool) : output :=
  match parameters_ m with
  | Some _ =>
      if use_initial then Line "Simulating circuit based on initial parameters"
      else Line "Simulating circuit based on fitted parameters"
  | None => Line "Simulating circuit based on initial parameters"
  end.

(** The frequencies [predict] refuses. *)
Inductive invalid_frequencies (frequencies : pyobj) : Prop :=
| not_an_array : is_ndarray frequencies = false → invalid_frequencies frequencies
| empty_array : frequencies = NdArray [] → invalid_frequencies frequencies
| not_a_number f0 fa :
    frequencies = NdArray (f0 :: fa) → is_number f0 = false →
    invalid_frequencies frequencies.

(** The impedance of a lone resistor, [R + 0j] at every frequency. *)
Definition resistor_impedance (circuit : string) (theta : list scalar)
    (frequency : scalar) : scalar :=
  match theta with
  | PyFloat r :: _ => PyComplex r 0
  | _ => PyComplex 0 0
  end.

Definition resistor_evaluator :
    string → option (list scalar) → list scalar → exn + list scalar :=
  Evaluator.computeCircuit count_names resistor_impedance.

(** A resistor model that was never fitted and has lost its guess. *)
Definition blank_resistor : model :=
  Model (Some "R_0") None None "leastsq" PyNone None None.

Definition blank_world : world := World {[ 0 := blank_resistor ]} ∅ [] [].

(** A resistor model with a guess and no fit. *)
Definition unfitted_resistor : model :=
  Model (Some "R_0") None (Some [PyFloat 7]) "leastsq" PyNone None None.

Definition unfitted_world : world := World {[ 0 := unfitted_resistor ]} ∅ [] [].

(** The exception of a [%] whose format has no conversion for its argument. *)
Definition unused_argument : exn :=
  TypeError "not all arguments converted during string formatting".

(** The world after [fitted_resistor] has been exported to model.json. *)
Definition exported_world : world :=
  (ModelIO.model_export 0 "model.json" resistor_world).2.

(** The document that export writes for [fitted_resistor]. *)
Definition exported_resistor : export_doc :=
  ExportDoc "resistor" "R_0" [("R_0", PyFloat 7)] [("R_0", PyFloat 5)]
            [("R_0", PyFloat 0.5)].

(** ** BaseCircuit.get_verbose_string (circuits.py, 134-160) *)

(** What the verbose string shows, line by line; the digits that
    ['{:.2e}'] produces are not modelled, the values it formats are. *)
Record verbose : Type := Verbose {
  shown_name : option string;
  shown_circuit : string;
  shown_algorithm : string;
  shown_fit : bool;
  shown_guesses : list (string * scalar);
  shown_parameters : list (string * scalar * scalar)
}.

(** [for name, param in zip(..)]: one formatted line per pair. *)
Fixpoint format_guess_lines (l : list (string * scalar))
    : exn + list (string * scalar) :=
  match l with
  | [] => inr []
  | (n, param) :: rest =>
      match format_2e param with
      | inl e => inl e
      | inr _ =>
          match format_guess_lines rest with
          | inl e => inl e
          | inr lines => inr ((n, param) :: lines)
          end
      end
  end.

(** [for name, param, conf in zip(..)]: the parameter is formatted, then
    its confidence. *)
Fixpoint format_fit_lines (l : list (string * scalar * scalar))
    : exn + list (string * scalar * scalar) :=
  match l with
  | [] => inr []
  | (n, param, conf) :: rest =>
      match format_2e param with
      | inl e => inl e
      | inr _ =>
          match format_2e conf with
          | inl e => inl e
          | inr _ =>
              match format_fit_lines rest with
              | inl e => inl e
              | inr lines => inr ((n, param, conf) :: lines)
              end
          end
      end
  end.

Definition get_verbose_string (self : loc) : M verbose :=
  names <- BaseCircuit.get_param_names self ;;
  m <- deref self ;;
  c <- get_circuit self ;;
  fitted <- BaseCircuit._is_fit self ;;
  guesses <- match initial_guess m with
             | Some g => lift (format_guess_lines (zip names g))
             | None => raise (TypeError "'NoneType' object is not iterable")
             end ;;
  fits <- (if fitted then
             match parameters_ m, conf_ m with
             | Some p, Some cf => lift (format_fit_lines (zip (zip names p) cf))
             | _, _ => raise (TypeError "'NoneType' object is not iterable")
             end
           else ret []) ;;
  ret (Verbose (name m) c (algorithm m) fitted guesses fits).

(** ** Further auxiliary definitions *)

(** A computation that leaves one component of the world as it was. *)
Definition preserves {A B : Type} (component : world → B) (c : M A) : Prop :=
  ∀ w, component (c w).2 = component w.



(** The values ['{:.2e}'] accepts. *)
Definition printable (v : scalar) : bool :=
  match v with
  | PyStr _ => false
  | PyInt z => fits_double z
  | _ => true
  end.


(** Occurrences of a character in a string. *)
Fixpoint count_char (c : ascii) (s : string) : nat :=
  match s with
  | EmptyString => 0
  | String d s' => (if Ascii.eqb d c then 1 else 0) + count_char c s'
  end.

(** The separators of a circuit string: [,], [/] and [-]. *)
Definition separators (s : string) : nat :=
  count_char "," s + count_char "/" s + count_char "-" s.

(** What the five replacements make of one character. *)
Definition strip_char (c : ascii) : string :=
  if Ascii.eqb c "p" then ""
  else if Ascii.eqb c "(" then ""
  else if Ascii.eqb c ")" then ""
  else if Ascii.eqb c "," then "-"
  else if Ascii.eqb c "/" then "-"
  else String c "".

(** An engine that never estimates a covariance. *)
Definition without_confidence
    (circuit_fit : pyobj → pyobj → string → list scalar → string → pyobj →
                   exn + (list scalar * option (list scalar))) : Prop :=
  ∀ f z c g a b p conf, circuit_fit f z c g a b = inr (p, conf) → conf = None.



(** A fitted two-element model whose vectors are one entry short. *)
Definition short_model : model :=
  Model (Some "R_0-C_1") None (Some [PyFloat 7]) "leastsq" PyNone
        (Some [NpFloat64 5]) (Some [NpFloat64 0.5]).

Definition short_world : world := World {[ 0 := short_model ]} ∅ [] [].

(** What [__str__] makes of a model whose circuit is [c]. *)
Definition str_outcome (m : model) (c : string) : exn + output :=
  let names := get_param_names c in
  let formatted :=
    match parameters_ m with
    | Some p =>
        match conf_ m with
        | Some cf => format_all (take (length names `min` length cf) p)
        | None => inl (TypeError "'NoneType' object is not iterable")
        end
    | None =>
        match initial_guess m with
        | Some g => format_all (take (length names) g)
        | None => inl (TypeError "'NoneType' object is not iterable")
        end
    end in
  match formatted with
  | inl e => inl e
  | inr _ => inr (ModelStr m)
  end.

(** What [get_verbose_string] makes of a model whose circuit is [c]. *)
Definition verbose_outcome (m : model) (c : string) : exn + verbose :=
  let names := get_param_names c in
  match initial_guess m with
  | None => inl (TypeError "'NoneType' object is not iterable")
  | Some g =>
      match format_guess_lines (zip names g) with
      | inl e => inl e
      | inr guesses =>
          match parameters_ m with
          | None => inr (Verbose (name m) c (algorithm m) false guesses [])
          | Some p =>
              match conf_ m with
              | None => inl (TypeError "'NoneType' object is not iterable")
              | Some cf =>
                  match format_fit_lines (zip (zip names p) cf) with
                  | inl e => inl e
                  | inr fits =>
                      inr (Verbose (name m) c (algorithm m) true guesses fits)
                  end
              end
          end
      end
  end.





(** Strings whose only structural character is the dash. *)
Fixpoint dashed (s : string) : bool :=
  match s with
  | EmptyString => true
  | String c s' => (Ascii.eqb c "-" || negb (structural c)) && dashed s'
  end.

(** The inputs [fit] refuses.  Its two class checks look at element [0]
    of each array and at nothing else. *)
Inductive refused_fit_input (guess : option (list scalar))
    (frequencies impedance : pyobj) : Prop :=
| refused_frequencies_not_array :
    is_ndarray frequencies = false → refused_fit_input guess frequencies impedance
| refused_impedance_not_array :
    is_ndarray impedance = false → refused_fit_input guess frequencies impedance
| refused_frequencies_empty :
    frequencies = NdArray [] → refused_fit_input guess frequencies impedance
| refused_impedance_empty :
    impedance = NdArray [] → refused_fit_input guess frequencies impedance
| refused_frequencies_first f0 fa :
    frequencies = NdArray (f0 :: fa) → is_number f0 = false →
    refused_fit_input guess frequencies impedance
| refused_impedance_first z0 za :
    impedance = NdArray (z0 :: za) → is_complex z0 = false →
    refused_fit_input guess frequencies impedance
| refused_length_mismatch a b :
    frequencies = NdArray a → impedance = NdArray b → length a ≠ length b →
    refused_fit_input guess frequencies impedance
| refused_no_initial_guess :
    guess = None → refused_fit_input guess frequencies impedance.

(** [np.array([10.0, 'x'], dtype=object)]: an array of Python objects
    whose first element is a number and whose second is not. *)
Definition mixed_frequencies : pyobj := NdArray [PyFloat 10; PyStr "x"].
(** * Properties *)

(** ** Strings *)

Section StringFacts.

Lemma app_cons c (a b : string) : String c a +:+ b = String c (a +:+ b).
Proof. reflexivity. Qed.

Lemma app_empty_l (a : string) : "" +:+ a = a.
Proof. reflexivity. Qed.

Lemma app_empty_r (a : string) : a +:+ "" = a.
Proof. induction a as [|c a IH]; [done|]. by rewrite app_cons, IH. Qed.

Lemma app_assoc3 (a b c : string) : (a +:+ b) +:+ c = a +:+ (b +:+ c).
Proof. induction a as [|x a IH]; [done|]. by rewrite !app_cons, IH. Qed.

Lemma replace_app old new (a b : string) :
  PyString.replace old new (a +:+ b)
  = PyString.replace old new a +:+ PyString.replace old new b.
Proof.
  induction a as [|c a IH]; [done|].
  rewrite app_cons. cbn [PyString.replace]. rewrite IH.
  destruct (Ascii.eqb c old); [by rewrite app_assoc3 | by rewrite app_cons].
Qed.

End StringFacts.

Section StripFacts.

Lemma get_param_names_strip c : get_param_names c = PyString.split "-" (strip c).
Proof. reflexivity. Qed.

Lemma strip_app a b : strip (a +:+ b) = strip a +:+ strip b.
Proof. unfold strip. by rewrite !replace_app. Qed.

Lemma replace_plain old new s :
  structural old = true → plain s = true → PyString.replace old new s = s.
Proof.
  intros Hold. induction s as [|c s IH]; [done|].
  cbn [plain PyString.replace]. intros [Hc Hs]%andb_true_iff.
  destruct (Ascii.eqb_spec c old) as [->|_].
  - by rewrite Hold in Hc.
  - by rewrite IH.
Qed.

Lemma strip_plain s : plain s = true → strip s = s.
Proof.
  intros H. unfold strip.
  rewrite (replace_plain "p" "" s), (replace_plain "(" "" s),
    (replace_plain ")" "" s), (replace_plain "," "-" s)
    by (assumption || reflexivity).
  by apply replace_plain.
Qed.

Lemma split_plain s : plain s = true → PyString.split "-" s = [s].
Proof.
  induction s as [|c s IH]; [done|].
  cbn [plain PyString.split]. intros [Hc Hs]%andb_true_iff.
  destruct (Ascii.eqb_spec c "-") as [->|_]; [done|].
  by rewrite IH.
Qed.

Lemma split_app_sep a b :
  plain a = true →
  PyString.split "-" (a +:+ "-" +:+ b) = a :: PyString.split "-" b.
Proof.
  induction a as [|c a IH]; [done|].
  cbn [plain]. intros [Hc Hs]%andb_true_iff.
  rewrite app_cons. cbn [PyString.split].
  destruct (Ascii.eqb_spec c "-") as [->|_]; [done|].
  by rewrite IH.
Qed.

Lemma split_join (l : list string) :
  Forall (λ s, plain s = true) l → l ≠ [] →
  PyString.split "-" (PyString.join "-" l) = l.
Proof.
  induction 1 as [|a l Ha Hl IH]; [done|]. intros _.
  destruct l as [|b l]; [by apply split_plain|].
  change (PyString.join "-" (a :: b :: l))
    with (a +:+ "-" +:+ PyString.join "-" (b :: l)).
  by rewrite split_app_sep, IH.
Qed.

Lemma join_app sep (l1 l2 : list string) :
  l1 ≠ [] → l2 ≠ [] →
  PyString.join sep (l1 ++ l2)
  = PyString.join sep l1 +:+ sep +:+ PyString.join sep l2.
Proof.
  intros H1 H2. induction l1 as [|a l1 IH]; [done|].
  destruct l1 as [|b l1].
  - destruct l2; done.
  - change (PyString.join sep ((a :: b :: l1) ++ l2))
      with (a +:+ sep +:+ PyString.join sep ((b :: l1) ++ l2)).
    rewrite IH by done.
    change (PyString.join sep (a :: b :: l1))
      with (a +:+ sep +:+ PyString.join sep (b :: l1)).
    by rewrite !app_assoc3.
Qed.

Lemma strip_join_slash (l : list string) :
  Forall (λ s, plain s = true) l →
  strip (PyString.join "/" l) = PyString.join "-" l.
Proof.
  induction 1 as [|a l Ha Hl IH]; [done|].
  destruct l as [|b l]; [by apply strip_plain|].
  change (PyString.join "/" (a :: b :: l))
    with (a +:+ "/" +:+ PyString.join "/" (b :: l)).
  rewrite !strip_app, IH, strip_plain by done. done.
Qed.

End StripFacts.

(** ** Rendered structures *)

Section RenderFacts.

Lemma plain_uint d : plain (NilEmpty.string_of_uint d) = true.
Proof. induction d; cbn [NilEmpty.string_of_uint plain]; by rewrite ?IHd. Qed.

Lemma plain_token t : plain (Grammar.render_token t) = true.
Proof.
  unfold Grammar.render_token. cbn [plain]. rewrite plain_uint.
  by destruct (Grammar.tok_kind t).
Qed.

Lemma plain_tokens (l : list Grammar.token) :
  Forall (λ s, plain s = true) (Grammar.render_token <$> l).
Proof. apply Forall_fmap, Forall_forall. intros t _. apply plain_token. Qed.

Lemma tokens_nonempty :
  (∀ n, Grammar.node_tokens n ≠ [])
  ∧ (∀ s, Grammar.series_tokens s ≠ [])
  ∧ (∀ bs, Grammar.branches_tokens bs ≠ []).
Proof.
  apply Grammar.structure_mutind; cbn; try done;
    intros; intros [? _]%app_eq_nil; done.
Qed.

Lemma names_nonempty (l : list Grammar.token) :
  l ≠ [] → Grammar.render_token <$> l ≠ [].
Proof. by destruct l. Qed.

Lemma strip_render :
  (∀ n, strip (Grammar.render_node n)
        = PyString.join "-" (Grammar.render_token <$> Grammar.node_tokens n))
  ∧ (∀ s, strip (Grammar.render_series s)
        = PyString.join "-" (Grammar.render_token <$> Grammar.series_tokens s))
  ∧ (∀ bs, strip (Grammar.render_branches bs)
        = PyString.join "-" (Grammar.render_token <$> Grammar.branches_tokens bs)).
Proof.
  destruct tokens_nonempty as (Hn & Hs & Hb).
  apply Grammar.structure_mutind.
  - intros t subs. cbn [Grammar.render_node Grammar.node_tokens].
    apply strip_join_slash, plain_tokens.
  - intros b IHb bs IHbs. cbn [Grammar.render_node Grammar.node_tokens].
    rewrite !strip_app, IHb, IHbs, fmap_app, join_app by auto using names_nonempty.
    change (strip "p(") with ""; change (strip ",") with "-";
      change (strip ")") with "".
    by rewrite app_empty_l, app_empty_r.
  - done.
  - intros n IHn rest IHrest. cbn [Grammar.render_series Grammar.series_tokens].
    rewrite !strip_app, IHn, IHrest, fmap_app, join_app by auto using names_nonempty.
    done.
  - done.
  - intros b IHb rest IHrest.
    cbn [Grammar.render_branches Grammar.branches_tokens].
    rewrite !strip_app, IHb, IHrest, fmap_app, join_app by auto using names_nonempty.
    done.
Qed.

Lemma tokens_length :
  (∀ n, Grammar.node_ok n = true →
        length (Grammar.node_tokens n) = Grammar.node_length n)
  ∧ (∀ s, Grammar.series_ok s = true →
        length (Grammar.series_tokens s) = Grammar.calculateCircuitLength s)
  ∧ (∀ bs, Grammar.branches_ok bs = true →
        length (Grammar.branches_tokens bs) = Grammar.branches_length bs).
Proof.
  apply Grammar.structure_mutind; cbn -[Grammar.arity]; try done.
  - intros t subs [Hlen _]%andb_true_iff. by apply Nat.eqb_eq in Hlen.
  - intros b IHb bs IHbs [??]%andb_true_iff. rewrite length_app. auto.
  - intros n IHn rest IHrest [??]%andb_true_iff. rewrite length_app. auto.
  - intros b IHb rest IHrest [??]%andb_true_iff. rewrite length_app. auto.
Qed.

End RenderFacts.

(** C7: for a valid circuit expression, [get_param_names] returns the name
    tokens of the expression in left-to-right order, one per scalar
    sub-parameter, and as many as calculateCircuitLength counts. *)
Theorem get_param_names_in_order (expr : string) (s : Grammar.series) :
  Grammar.valid_expression expr s →
  get_param_names expr = Grammar.render_token <$> Grammar.series_tokens s
  ∧ length (get_param_names expr) = Grammar.calculateCircuitLength s.
Proof.
  intros [Hok ->].
  assert (get_param_names (Grammar.render_series s)
          = Grammar.render_token <$> Grammar.series_tokens s) as Hnames.
  { rewrite get_param_names_strip.
    destruct strip_render as (_ & -> & _).
    apply split_join; [apply plain_tokens|].
    apply names_nonempty, tokens_nonempty. }
  split; [done|].
  rewrite Hnames, length_fmap. by apply tokens_length.
Qed.

Lemma get_param_names_in_order_witness :
  get_param_names "R_0-p(R_1,C_1)-W_1/W_2" = ["R_0"; "R_1"; "C_1"; "W_1"; "W_2"]
  ∧ length (get_param_names "R_0-p(R_1,C_1)-W_1/W_2") = 5.
Proof.
  apply (get_param_names_in_order "R_0-p(R_1,C_1)-W_1/W_2" randles_structure).
  split; reflexivity.
Defined.

(** ** Running the facade *)

Ltac unfold_py :=
  unfold get_circuit, get_initial_guess in *;
  unfold bind, assert, lift, ret, raise, deref, update, allocate, record_call,
    print, write_file, read_file in *.

Ltac run_store :=
  repeat first
    [ progress cbn [heap files calls stdout circuit name initial_guess algorithm
                    bounds parameters_ conf_ set_circuit set_name set_parameters_
                    set_conf_ len]
    | rewrite lookup_insert_eq
    | rewrite insert_insert_eq ].

Section FitFacts.

Variable circuit_fit :
  pyobj → pyobj → string → list scalar → string → pyobj →
  exn + (list scalar * option (list scalar)).

(** What one call of [fit] does, case by case. *)
Lemma fit_run self frequencies impedance w :
  BaseCircuit.fit circuit_fit self frequencies impedance w =
  match fit_input_error frequencies impedance with
  | Some e => (inl e, w)
  | None =>
      match heap w !! self with
      | None => (inl ReferenceError, w)
      | Some m =>
          match initial_guess m with
          | None => (inl (ValueError "no initial guess supplied"), w)
          | Some guess =>
              match circuit m with
              | None =>
                  (inl (AttributeError "object has no attribute 'circuit'"), w)
              | Some c =>
                  let asked :=
                    CircuitFit frequencies impedance c guess (algorithm m) (bounds m) in
                  match circuit_fit frequencies impedance c guess
                          (algorithm m) (bounds m) with
                  | inl e => (inl e, with_call asked w)
                  | inr (parameters, conf) =>
                      (inr self,
                       with_heap (<[self := store_fit parameters conf m]> (heap w))
                         (with_call asked w))
                  end
              end
          end
      end
  end.
Proof.
  unfold BaseCircuit.fit, fit_input_error.
  destruct frequencies as [|?|[|f0 fa]|?]; try reflexivity.
  unfold_py. cbn [first is_ndarray size].
  destruct (is_number f0); [|reflexivity].
  destruct impedance as [|?|[|z0 za]|?]; try reflexivity.
  cbn [first is_ndarray size].
  destruct (is_complex z0); [|reflexivity].
  destruct (length (f0 :: fa) =? length (z0 :: za)); [|reflexivity].
  destruct (heap w !! self) as [m|] eqn:Hm; [|reflexivity].
  destruct (initial_guess m) as [guess|]; [|reflexivity].
  rewrite ?Hm. destruct (circuit m) as [c|]; [|reflexivity].
  cbn [heap files calls stdout].
  destruct (circuit_fit _ _ _ _ _ _) as [e|[parameters conf]]; [reflexivity|].
  cbn [heap files calls stdout]. rewrite ?Hm.
  destruct conf as [cf|]; cbn [heap files calls stdout store_fit].
  - rewrite lookup_insert_eq. cbn [heap files calls stdout].
    unfold with_heap, with_call. cbn [heap files calls stdout].
    by rewrite insert_insert_eq.
  - reflexivity.
Qed.

End FitFacts.

Section ValidationFacts.

Lemma same_class_is_number u v : same_class u v = true → is_number u = is_number v.
Proof. by destruct u, v. Qed.

Lemma same_class_is_complex u v : same_class u v = true → is_complex u = is_complex v.
Proof. by destruct u, v. Qed.

(** Inputs that pass every check of [fit]. *)
Lemma fit_input_error_none frequencies impedance :
  fit_input_error frequencies impedance = None →
  ∃ f0 fa z0 za,
    frequencies = NdArray (f0 :: fa) ∧ impedance = NdArray (z0 :: za)
    ∧ is_number f0 = true ∧ is_complex z0 = true
    ∧ length (f0 :: fa) = length (z0 :: za).
Proof.
  unfold fit_input_error.
  destruct frequencies as [|?|[|f0 fa]|?]; try done.
  destruct (is_number f0) eqn:Hf; [|done].
  destruct impedance as [|?|[|z0 za]|?]; try done.
  destruct (is_complex z0) eqn:Hz; [|done].
  destruct (length (f0 :: fa) =? length (z0 :: za)) eqn:Hlen; [|done].
  intros _. exists f0, fa, z0, za. by apply Nat.eqb_eq in Hlen.
Qed.

Lemma invalid_fit_input_caught guess frequencies impedance :
  invalid_fit_input guess frequencies impedance →
  fit_input_error frequencies impedance = None → guess = None.
Proof.
  intros Hbad (f0 & fa & z0 & za & -> & -> & Hf & Hz & Hlen)%fit_input_error_none.
  destruct Hbad as [H|H|H|H|a v H Hdt Hv Hbad|a v H Hdt Hv Hbad|a b Ha Hb Hne|H];
    try done.
  - injection H as <-.
    rewrite <- (same_class_is_number f0 v), Hf in Hbad; [done|].
    apply Hdt; [left|done].
  - injection H as <-.
    rewrite <- (same_class_is_complex z0 v), Hz in Hbad; [done|].
    apply Hdt; [left|done].
  - injection Ha as <-. injection Hb as <-. done.
Qed.

End ValidationFacts.

(** Arrays of one dtype: [fit] refuses an input that is not an array, is
    empty, holds the wrong class of values or differs in length from its
    companion, and a model without an initial guess; it raises whatever
    the fitting engine is, and the world stays as it was. *)
Theorem fit_validates_before_solver self m frequencies impedance w :
  heap w !! self = Some m →
  invalid_fit_input (initial_guess m) frequencies impedance →
  ∃ e, ∀ circuit_fit,
    BaseCircuit.fit circuit_fit self frequencies impedance w = (inl e, w).
Proof.
  intros Hm Hbad.
  destruct (fit_input_error frequencies impedance) as [e|] eqn:Herr.
  - exists e. intros cf. by rewrite fit_run, Herr.
  - exists (ValueError "no initial guess supplied"). intros cf.
    rewrite fit_run, Herr, Hm.
    by rewrite (invalid_fit_input_caught _ _ _ Hbad Herr).
Qed.

Lemma fit_validates_before_solver_witness :
  ∃ e, ∀ circuit_fit,
    BaseCircuit.fit circuit_fit 0 two_frequencies (NdArray [NpComplex128 7 0])
      resistor_world
    = (inl e, resistor_world).
Proof.
  apply (fit_validates_before_solver 0 fitted_resistor).
  - reflexivity.
  - eapply length_mismatch; [reflexivity|reflexivity|]. cbn. lia.
Defined.

Lemma refused_fit_input_caught guess frequencies impedance :
  refused_fit_input guess frequencies impedance →
  fit_input_error frequencies impedance = None → guess = None.
Proof.
  intros Hbad (f0 & fa & z0 & za & -> & -> & Hf & Hz & Hlen)%fit_input_error_none.
  destruct Hbad as [H|H|H|H|g0 ga H Hbad|y0 ya H Hbad|a b Ha Hb Hne|H];
    try done.
  - injection H as <- <-. by rewrite Hf in Hbad.
  - injection H as <- <-. by rewrite Hz in Hbad.
  - injection Ha as <-. injection Hb as <-. done.
Qed.

(** C5, as amended: [fit] refuses an input that is not an array, an empty
    array, an array whose first element is of the wrong class, arrays of
    different lengths, and a model without an initial guess; it raises
    whatever the fitting engine is, and the world, its log of engine calls
    included, stays as it was. *)
Theorem fit_refuses_before_solver self m frequencies impedance w :
  heap w !! self = Some m →
  refused_fit_input (initial_guess m) frequencies impedance →
  ∃ e, ∀ circuit_fit,
    BaseCircuit.fit circuit_fit self frequencies impedance w = (inl e, w).
Proof.
  intros Hm Hbad.
  destruct (fit_input_error frequencies impedance) as [e|] eqn:Herr.
  - exists e. intros cf. by rewrite fit_run, Herr.
  - exists (ValueError "no initial guess supplied"). intros cf.
    rewrite fit_run, Herr, Hm.
    by rewrite (refused_fit_input_caught _ _ _ Hbad Herr).
Qed.

Lemma fit_refuses_before_solver_witness :
  ∃ e, ∀ circuit_fit,
    BaseCircuit.fit circuit_fit 0 (NdArray [NpInt64 10; NpInt64 100])
      two_impedances resistor_world
    = (inl e, resistor_world).
Proof.
  apply (fit_refuses_before_solver 0 fitted_resistor).
  - reflexivity.
  - by eapply refused_frequencies_first.
Defined.

(** C5, as stated, fails on an array of Python objects: [fit] looks at
    element [0] only, so [[10.0, 'x']] passes every check although it
    holds a [str], and the fitting engine is called with it. *)
Lemma fit_accepts_mixed_array :
  is_number (PyStr "x") = false
  ∧ (BaseCircuit.fit fit_with_covariance 0 mixed_frequencies two_impedances
       resistor_world).1 = inr 0
  ∧ calls (BaseCircuit.fit fit_with_covariance 0 mixed_frequencies two_impedances
             resistor_world).2
    = [CircuitFit mixed_frequencies two_impedances "R_0" [PyFloat 7] "leastsq"
         PyNone].
Proof. repeat split. Qed.

(** C8: a call of [fit] that returns, returns the reference it was called
    on, and the store holds the same objects as before. *)
Theorem fit_returns_self circuit_fit self frequencies impedance w r w' :
  BaseCircuit.fit circuit_fit self frequencies impedance w = (inr r, w') →
  r = self ∧ dom (heap w') = dom (heap w) ∧ is_Some (heap w' !! r).
Proof.
  rewrite fit_run.
  destruct (fit_input_error frequencies impedance); [done|].
  destruct (heap w !! self) as [m|] eqn:Hm; [|done].
  destruct (initial_guess m); [|done].
  destruct (circuit m); [|done].
  destruct (circuit_fit _ _ _ _ _ _) as [e|[parameters conf]]; [done|].
  intros [= <- <-]. cbn [with_heap heap].
  split; [done|]. split.
  - rewrite dom_insert_L. apply elem_of_dom_2 in Hm.
    by apply subseteq_union_1_L, singleton_subseteq_l.
  - rewrite lookup_insert_eq. eauto.
Qed.

Lemma fit_returns_self_witness :
  (BaseCircuit.fit fit_with_covariance 0 two_frequencies two_impedances
     resistor_world).1 = inr 0
  ∧ dom (heap (BaseCircuit.fit fit_with_covariance 0 two_frequencies
                 two_impedances resistor_world).2)
    = dom (heap resistor_world).
Proof.
  split; [reflexivity|].
  apply (fit_returns_self fit_with_covariance 0 two_frequencies two_impedances
           resistor_world 0).
  reflexivity.
Defined.

(** C3, as amended: a call of [fit] that returns stores the engine's
    parameter vector, and stores its confidence vector when it gave one;
    when it gave none, [conf_] keeps the value it had.  A call that raises,
    in validation or in the engine, leaves the store as it was. *)
Theorem fit_stores_result circuit_fit self frequencies impedance w :
  match BaseCircuit.fit circuit_fit self frequencies impedance w with
  | (inr _, w') =>
      ∃ m c guess parameters conf,
        heap w !! self = Some m ∧ circuit m = Some c
        ∧ initial_guess m = Some guess
        ∧ circuit_fit frequencies impedance c guess (algorithm m) (bounds m)
          = inr (parameters, conf)
        ∧ heap w' = <[self := store_fit parameters conf m]> (heap w)
        ∧ parameters_ (store_fit parameters conf m) = Some parameters
        ∧ conf_ (store_fit parameters conf m)
          = match conf with Some _ => conf | None => conf_ m end
  | (inl _, w') => heap w' = heap w
  end.
Proof.
  rewrite fit_run.
  destruct (fit_input_error frequencies impedance); [done|].
  destruct (heap w !! self) as [m|] eqn:Hm; [|done].
  destruct (initial_guess m) as [guess|] eqn:Hg; [|done].
  destruct (circuit m) as [c|] eqn:Hc; [|done].
  destruct (circuit_fit _ _ _ _ _ _) as [e|[parameters conf]] eqn:Hfit; [done|].
  exists m, c, guess, parameters, conf.
  repeat split; try done; by destruct conf.
Qed.

(** C3, as stated, fails: a second fit whose engine returns no confidence
    vector replaces [parameters_] and leaves the confidence of the first
    fit in [conf_]. *)
Lemma fit_keeps_stale_confidence :
  let result :=
    BaseCircuit.fit fit_without_covariance 0 two_frequencies two_impedances
      resistor_world in
  result.1 = inr 0
  ∧ fit_without_covariance two_frequencies two_impedances "R_0" [PyFloat 7]
      "leastsq" PyNone = inr ([NpFloat64 7], None)
  ∧ parameters_ <$> heap resistor_world !! 0 = Some (Some [NpFloat64 5])
  ∧ parameters_ <$> heap result.2 !! 0 = Some (Some [NpFloat64 7])
  ∧ conf_ <$> heap result.2 !! 0 = Some (Some [NpFloat64 0.5])
  ∧ conf_ <$> heap result.2 !! 0 ≠ Some None.
Proof. repeat split; try reflexivity. vm_compute. discriminate. Qed.

(** ** Constructors *)

Section ConstructorFacts.

Variable calculateCircuitLength : string → exn + nat.

Lemma check_initial_guess_run l w :
  BaseCircuit.check_initial_guess l w =
  if forallb is_number l then (inr tt, w)
  else (inl (AssertionError "value in initial_guess is not a number"), w).
Proof.
  induction l as [|i l IH]; [done|].
  cbn [BaseCircuit.check_initial_guess forallb]. unfold_py.
  destruct (is_number i); [|reflexivity]. rewrite IH. reflexivity.
Qed.

Lemma base_init_run guess nm alg bnds w :
  BaseCircuit.__init__ guess nm alg bnds w =
  if numbers_only guess then
    (inr (fresh (dom (heap w))),
     with_heap (<[fresh (dom (heap w)) := Model None nm guess alg bnds None None]>
                  (heap w)) w)
  else (inl (AssertionError "value in initial_guess is not a number"), w).
Proof.
  unfold BaseCircuit.__init__, numbers_only. destruct guess as [l|].
  - unfold bind. rewrite check_initial_guess_run.
    by destruct (forallb is_number l).
  - reflexivity.
Qed.

Lemma custom_init_run c guess nm alg bnds w :
  CustomCircuit.__init__ calculateCircuitLength c guess nm alg bnds w =
  if numbers_only guess then
    checked_construction calculateCircuitLength
      "Initial guess length needs to be equal to {circuit_length}" c
      (Model (Some c) nm guess alg bnds None None) w
  else (inl (AssertionError "value in initial_guess is not a number"), w).
Proof.
  unfold CustomCircuit.__init__, bind at 1. rewrite base_init_run.
  destruct (numbers_only guess); [|done].
  unfold checked_construction, with_heap. unfold_py. run_store.
  destruct (calculateCircuitLength c) as [e|n]; [done|]. run_store.
  destruct guess as [g|]; [|done]. run_store.
  by destruct (length g =? n).
Qed.

Lemma randles_init_run CPE guess nm alg bnds w :
  Randles.__init__ calculateCircuitLength CPE guess nm alg bnds w =
  if numbers_only guess then
    checked_construction calculateCircuitLength
      "Initial guess length needs to be equal to parameter length"
      (randles_circuit CPE)
      (Model (Some (randles_circuit CPE)) (Some (randles_name CPE)) guess alg bnds
             None None) w
  else (inl (AssertionError "value in initial_guess is not a number"), w).
Proof.
  unfold Randles.__init__, bind at 1. rewrite base_init_run.
  destruct (numbers_only guess); [|done].
  unfold checked_construction, with_heap.
  destruct CPE; unfold_py; cbn [randles_circuit randles_name]; run_store;
    (destruct (calculateCircuitLength _) as [e|n]; [done|]); run_store;
    (destruct guess as [g|]; [|done]); run_store;
    by destruct (length g =? n).
Qed.

Lemma checked_construction_mismatch msg c m g n w :
  calculateCircuitLength c = inr n → initial_guess m = Some g → length g ≠ n →
  ∃ w', checked_construction calculateCircuitLength msg c m w
        = (inl (AssertionError msg), w')
        ∧ calls w' = calls w.
Proof.
  intros Hn Hg Hne. unfold checked_construction. rewrite Hn, Hg.
  apply Nat.eqb_neq in Hne as ->. eauto.
Qed.

Lemma checked_construction_success msg c m w self w' :
  checked_construction calculateCircuitLength msg c m w = (inr self, w') →
  heap w' !! self = Some m
  ∧ ∃ g, initial_guess m = Some g ∧ calculateCircuitLength c = inr (length g).
Proof.
  unfold checked_construction.
  destruct (calculateCircuitLength c) as [e|n]; [done|].
  destruct (initial_guess m) as [g|]; [|done].
  destruct (length g =? n) eqn:Hlen; [|done].
  intros [= <- <-]. cbn [with_heap heap]. rewrite lookup_insert_eq.
  apply Nat.eqb_eq in Hlen as <-. eauto.
Qed.

End ConstructorFacts.

(** C6: with an initial guess whose length is not the circuit length,
    [CustomCircuit] and [Randles] raise an assertion error in the
    constructor, before any call into the fitting module; and the object a
    constructor returns has an initial guess of exactly the circuit length. *)
Theorem construction_enforces_length calculateCircuitLength c CPE guess nm alg
    bnds n nr w :
  calculateCircuitLength c = inr n →
  calculateCircuitLength (randles_circuit CPE) = inr nr →
  (length guess ≠ n →
   ∃ msg w',
     CustomCircuit.__init__ calculateCircuitLength c (Some guess) nm alg bnds w
     = (inl (AssertionError msg), w')
     ∧ calls w' = calls w)
  ∧ (length guess ≠ nr →
     ∃ msg w',
       Randles.__init__ calculateCircuitLength CPE (Some guess) nm alg bnds w
       = (inl (AssertionError msg), w')
       ∧ calls w' = calls w)
  ∧ (∀ given self w',
       CustomCircuit.__init__ calculateCircuitLength c given nm alg bnds w
       = (inr self, w') →
       ∃ m g, heap w' !! self = Some m ∧ circuit m = Some c
              ∧ initial_guess m = Some g ∧ length g = n)
  ∧ (∀ given self w',
       Randles.__init__ calculateCircuitLength CPE given nm alg bnds w
       = (inr self, w') →
       ∃ m g, heap w' !! self = Some m ∧ circuit m = Some (randles_circuit CPE)
              ∧ initial_guess m = Some g ∧ length g = nr).
Proof.
  intros Hn Hnr. repeat split.
  - intros Hne. rewrite custom_init_run.
    destruct (numbers_only (Some guess)); [|by eauto].
    edestruct checked_construction_mismatch as (w' & -> & ?); eauto.
  - intros Hne. rewrite randles_init_run.
    destruct (numbers_only (Some guess)); [|by eauto].
    edestruct checked_construction_mismatch as (w' & -> & ?); eauto.
  - intros given self w'. rewrite custom_init_run.
    destruct (numbers_only given); [|done].
    intros (Hself & g & Hg & Hlen)%checked_construction_success.
    eexists _, g. repeat split; [done..|]. congruence.
  - intros given self w'. rewrite randles_init_run.
    destruct (numbers_only given); [|done].
    intros (Hself & g & Hg & Hlen)%checked_construction_success.
    eexists _, g. repeat split; [done..|]. congruence.
Qed.

Lemma construction_enforces_length_witness :
  (∃ msg w',
     CustomCircuit.__init__ count_names "R_0" (Some [PyFloat 1; PyFloat 2]) None
       "leastsq" PyNone resistor_world
     = (inl (AssertionError msg), w')
     ∧ calls w' = calls resistor_world)
  ∧ (∃ m g,
       heap (CustomCircuit.__init__ count_names "R_0" (Some [PyFloat 1]) None
               "leastsq" PyNone resistor_world).2 !! 1 = Some m
       ∧ circuit m = Some "R_0" ∧ initial_guess m = Some g ∧ length g = 1).
Proof.
  destruct (construction_enforces_length count_names "R_0" false
              [PyFloat 1; PyFloat 2] None "leastsq" PyNone 1 5 resistor_world
              eq_refl eq_refl) as (Hfail & _ & Hok & _).
  split.
  - apply Hfail. cbn. lia.
  - apply (Hok (Some [PyFloat 1]) 1). vm_compute. reflexivity.
Defined.

(** ** Prediction *)

Section PredictFacts.

Variable computeCircuit :
  string → option (list scalar) → list scalar → exn + list scalar.

Lemma predict_run self f0 fa use_initial w :
  is_number f0 = true →
  BaseCircuit.predict computeCircuit self (NdArray (f0 :: fa)) use_initial w =
  match heap w !! self with
  | None => (inl ReferenceError, w)
  | Some m =>
      let w1 := with_output (predict_banner m use_initial) w in
      match circuit m with
      | None => (inl (AttributeError "object has no attribute 'circuit'"), w1)
      | Some c =>
          let theta := chosen_parameters m use_initial in
          let fs := tolist (f0 :: fa) in
          (computeCircuit c theta fs, with_call (ComputeCircuit c theta fs) w1)
      end
  end.
Proof.
  intros Hf0. unfold BaseCircuit.predict, BaseCircuit._is_fit. unfold_py.
  cbn [is_ndarray first ndarray_tolist]. rewrite Hf0.
  destruct (heap w !! self) as [m|] eqn:Hm; [|reflexivity].
  unfold chosen_parameters, predict_banner, with_output, with_call.
  destruct (parameters_ m) as [p|] eqn:Hp; [destruct use_initial|];
    cbn [andb negb]; run_store; rewrite ?Hm;
    (destruct (circuit m) as [c|]; [|reflexivity]);
    repeat (progress (run_store; rewrite ?Hm, ?Hp)); reflexivity.
Qed.

Lemma predict_rejects self frequencies use_initial w :
  invalid_frequencies frequencies →
  ∃ e, BaseCircuit.predict computeCircuit self frequencies use_initial w
       = (inl e, w).
Proof.
  unfold BaseCircuit.predict. unfold_py.
  intros [H | -> | f0 fa -> H].
  - destruct frequencies as [|?|?|?]; try done; cbn; eauto.
  - cbn. eauto.
  - cbn [is_ndarray first]. rewrite H. eauto.
Qed.

End PredictFacts.

(** C4, as amended: on a non-empty frequency array whose first element is
    a number, [predict] returns what the Evaluator returns for the fitted
    parameters when there is a fit and [use_initial] is false, and for the
    stored initial guess otherwise; it calls the Evaluator once.  On any
    other frequencies it raises and the world stays as it was. *)
Theorem predict_delegates computeCircuit self m c use_initial w :
  heap w !! self = Some m → circuit m = Some c →
  (∀ f0 fa, is_number f0 = true →
     let result :=
       BaseCircuit.predict computeCircuit self (NdArray (f0 :: fa)) use_initial w in
     result.1 = computeCircuit c (chosen_parameters m use_initial) (tolist (f0 :: fa))
     ∧ calls result.2
       = calls w ++ [ComputeCircuit c (chosen_parameters m use_initial)
                       (tolist (f0 :: fa))])
  ∧ (∀ frequencies, invalid_frequencies frequencies →
     ∃ e, BaseCircuit.predict computeCircuit self frequencies use_initial w
          = (inl e, w)).
Proof.
  intros Hm Hc. split.
  - intros f0 fa Hf0. cbn zeta. rewrite predict_run, Hm by done.
    cbn zeta. rewrite Hc. done.
  - intros frequencies Hbad. by apply predict_rejects.
Qed.

Lemma predict_delegates_witness :
  (BaseCircuit.predict resistor_evaluator 0 two_frequencies false resistor_world).1
  = inr [PyComplex 5 0; PyComplex 5 0]
  ∧ (BaseCircuit.predict resistor_evaluator 0 two_frequencies true resistor_world).1
    = inr [PyComplex 7 0; PyComplex 7 0].
Proof.
  unfold two_frequencies. split.
  - rewrite (proj1 (proj1 (predict_delegates resistor_evaluator 0 fitted_resistor
                             "R_0" false resistor_world eq_refl eq_refl)
                      (NpFloat64 10) [NpFloat64 100] eq_refl)).
    reflexivity.
  - rewrite (proj1 (proj1 (predict_delegates resistor_evaluator 0 fitted_resistor
                             "R_0" true resistor_world eq_refl eq_refl)
                      (NpFloat64 10) [NpFloat64 100] eq_refl)).
    reflexivity.
Defined.

(** C4, as stated, fails on the empty frequency array: the Evaluator maps
    it to the empty impedance array, [predict] raises on [frequencies[0]]. *)
Lemma predict_empty_frequencies :
  (BaseCircuit.predict resistor_evaluator 0 (NdArray []) false resistor_world).1
  = inl (IndexError "index 0 is out of bounds for axis 0 with size 0")
  ∧ resistor_evaluator "R_0" (chosen_parameters fitted_resistor false) (tolist [])
    = inr []
  ∧ (BaseCircuit.predict resistor_evaluator 0 (NdArray []) false resistor_world).1
    ≠ resistor_evaluator "R_0" (chosen_parameters fitted_resistor false) (tolist []).
Proof. repeat split. vm_compute. discriminate. Qed.

(** C2: with no fit and no initial guess, [predict] raises whatever the
    frequencies are; the Evaluator is the one the specification describes. *)
Theorem predict_unconfigured_raises calculateCircuitLength impedance_at self m
    frequencies w :
  heap w !! self = Some m → parameters_ m = None → initial_guess m = None →
  ∃ e w',
    BaseCircuit.predict
      (Evaluator.computeCircuit calculateCircuitLength impedance_at)
      self frequencies false w
    = (inl e, w').
Proof.
  intros Hm Hp Hg.
  destruct frequencies as [|l|[|f0 fa]|v].
  1,2,3,5: edestruct predict_rejects as [e He];
    [|by eexists _, _; apply He]; by constructor.
  destruct (is_number f0) eqn:Hf0.
  - rewrite predict_run, Hm by done. cbn zeta.
    destruct (circuit m) as [c|]; [|by eauto].
    unfold chosen_parameters. rewrite Hp, Hg. cbn. eauto.
  - edestruct predict_rejects as [e He]; [|by eexists _, _; apply He].
    by eapply not_a_number.
Qed.

Lemma predict_unconfigured_raises_witness :
  ∃ e w',
    BaseCircuit.predict (Evaluator.computeCircuit count_names resistor_impedance)
      0 two_frequencies false blank_world
    = (inl e, w').
Proof.
  apply (predict_unconfigured_raises count_names resistor_impedance 0
           blank_resistor two_frequencies blank_world);
    reflexivity.
Defined.

(** ** Export and import *)

Section ExportFacts.

Lemma split_nonempty sep s : PyString.split sep s ≠ [].
Proof.
  destruct s as [|c s]; [done|]. cbn [PyString.split].
  destruct (Ascii.eqb c sep); [done|]. by destruct (PyString.split sep s).
Qed.

Lemma get_param_names_nonempty c : get_param_names c ≠ [].
Proof. apply split_nonempty. Qed.

Lemma enumerate_pairs_none names index :
  names ≠ [] →
  enumerate_pairs names index None
  = inl (TypeError "'NoneType' object is not subscriptable").
Proof. by destruct names. Qed.

End ExportFacts.

Section AttributeFacts.

Lemma deref_run self m w : heap w !! self = Some m → deref self w = (inr m, w).
Proof. intros Hm. unfold deref. by rewrite Hm. Qed.

Lemma get_circuit_run self m w :
  heap w !! self = Some m →
  get_circuit self w =
  match circuit m with
  | Some c => (inr c, w)
  | None => (inl (AttributeError "object has no attribute 'circuit'"), w)
  end.
Proof.
  intros Hm. unfold get_circuit, bind. rewrite (deref_run _ _ _ Hm).
  by destruct (circuit m).
Qed.

Lemma method_get_param_names_run self m c w :
  heap w !! self = Some m → circuit m = Some c →
  BaseCircuit.get_param_names self w = (inr (get_param_names c), w).
Proof.
  intros Hm Hc. unfold BaseCircuit.get_param_names, bind.
  by rewrite (get_circuit_run _ _ _ Hm), Hc.
Qed.

End AttributeFacts.

(** C9: [model_export] of a model whose [parameters_] or [conf_] is [None]
    raises before it opens the destination; the world, its files included,
    stays as it was. *)
Theorem export_unfitted_raises self m filepath w :
  heap w !! self = Some m →
  parameters_ m = None ∨ conf_ m = None →
  ∃ e, ModelIO.model_export self filepath w = (inl e, w).
Proof.
  intros Hm Hnone.
  unfold ModelIO.model_export. unfold bind at 1.
  rewrite (get_circuit_run _ _ _ Hm).
  destruct (circuit m) as [c|] eqn:Hc; [|eexists; reflexivity].
  unfold bind at 1. rewrite (deref_run _ _ _ Hm).
  unfold bind at 1. rewrite (method_get_param_names_run _ _ _ _ Hm Hc).
  pose proof (get_param_names_nonempty c) as Hnames.
  unfold bind at 1, lift at 1.
  destruct (enumerate_pairs (get_param_names c) 0 (initial_guess m));
    [eexists; reflexivity|].
  unfold bind at 1, lift at 1.
  destruct Hnone as [-> | ->].
  - rewrite enumerate_pairs_none by done. eexists; reflexivity.
  - destruct (enumerate_pairs (get_param_names c) 0 (parameters_ m));
      [eexists; reflexivity|].
    unfold bind at 1, lift at 1.
    rewrite enumerate_pairs_none by done. eexists; reflexivity.
Qed.

Lemma export_unfitted_raises_witness :
  ∃ e, ModelIO.model_export 0 "model.json" unfitted_world = (inl e, unfitted_world).
Proof.
  apply (export_unfitted_raises 0 unfitted_resistor "model.json" unfitted_world).
  - reflexivity.
  - left. reflexivity.
Defined.

Section ImportFacts.

Variable calculateCircuitLength : string → exn + nat.

(** The argument of the last format of [model_import] is never used. *)
Lemma import_banner_raises filepath :
  percent_format "the following circuit parameters" (Some filepath)
  = inl unused_argument.
Proof. reflexivity. Qed.

Lemma model_import_run filepath d as_initial_guess w :
  files w !! filepath = Some (JsonFile d) →
  ModelIO.model_import calculateCircuitLength filepath as_initial_guess w =
  let w1 := with_output (ListRepr (snd <$> doc_initial_guess d)) w in
  let nm := if String.eqb (doc_name d) "None" then None else Some (doc_name d) in
  if as_initial_guess then
    match CustomCircuit.__init__ calculateCircuitLength (doc_circuit_string d)
            (Some (snd <$> doc_parameters d)) nm "leastsq" PyNone w1 with
    | (inl e, w2) => (inl e, w2)
    | (inr _, w2) => (inl unused_argument, w2)
    end
  else
    match CustomCircuit.__init__ calculateCircuitLength (doc_circuit_string d)
            (Some (snd <$> doc_initial_guess d)) nm "leastsq" PyNone w1 with
    | (inl e, w2) => (inl e, w2)
    | (inr self, w2) =>
        match heap w2 !! self with
        | Some m =>
            (inl unused_argument,
             with_heap
               (<[self := set_conf_ (Some (np_array (snd <$> doc_initial_guess d)))
                            (set_parameters_
                               (Some (np_array (snd <$> doc_parameters d))) m)]>
                  (heap w2)) w2)
        | None => (inl ReferenceError, w2)
        end
    end.
Proof.
  intros Hfile. unfold ModelIO.model_import. unfold_py.
  rewrite Hfile. cbn zeta. unfold with_output.
  destruct as_initial_guess.
  - destruct (CustomCircuit.__init__ _ _ _ _ _ _ _) as [[e|self] w2]; reflexivity.
  - destruct (CustomCircuit.__init__ _ _ _ _ _ _ _) as [[e|self] w2];
      [reflexivity|].
    destruct (heap w2 !! self) as [m|]; [|reflexivity].
    run_store. unfold with_heap. reflexivity.
Qed.

(** X4: [model_import] never returns a model: whatever the path holds
    and whichever way it is asked to import, it raises. *)
Lemma model_import_never_returns filepath as_initial_guess w :
  ∃ e w',
    ModelIO.model_import calculateCircuitLength filepath as_initial_guess w
    = (inl e, w').
Proof.
  destruct (files w !! filepath) as [[d|]|] eqn:Hfile.
  - rewrite (model_import_run _ _ _ _ Hfile). cbn zeta.
    destruct as_initial_guess;
      destruct (CustomCircuit.__init__ _ _ _ _ _ _ _) as [[e|self] w2]; eauto.
    destruct (heap w2 !! self); eauto.
  - unfold ModelIO.model_import. unfold_py. rewrite Hfile. eauto.
  - unfold ModelIO.model_import. unfold_py. rewrite Hfile. eauto.
Qed.

Lemma custom_init_success c guess nm w :
  forallb is_number guess = true →
  calculateCircuitLength c = inr (length guess) →
  CustomCircuit.__init__ calculateCircuitLength c (Some guess) nm "leastsq" PyNone w
  = (inr (fresh (dom (heap w))),
     with_heap (<[fresh (dom (heap w)) :=
                    Model (Some c) nm (Some guess) "leastsq" PyNone None None]>
                  (heap w)) w).
Proof.
  intros Hnum Hlen. rewrite custom_init_run. cbn [numbers_only]. rewrite Hnum.
  unfold checked_construction. rewrite Hlen. cbn [initial_guess].
  by rewrite Nat.eqb_refl.
Qed.

End ImportFacts.

(** C10: [model_import] with [as_initial_guess=True] builds the model the
    claim describes, with the exported parameters as its initial guess and
    no fit, and then raises in its [print] instead of returning it. *)
Theorem import_as_initial_guess_raises calculateCircuitLength filepath d w :
  files w !! filepath = Some (JsonFile d) →
  forallb is_number (snd <$> doc_parameters d) = true →
  calculateCircuitLength (doc_circuit_string d) = inr (length (doc_parameters d)) →
  ∃ w' m,
    ModelIO.model_import calculateCircuitLength filepath true w
    = (inl unused_argument, w')
    ∧ heap w' !! fresh (dom (heap w)) = Some m
    ∧ initial_guess m = Some (snd <$> doc_parameters d)
    ∧ parameters_ m = None ∧ conf_ m = None.
Proof.
  intros Hfile Hnum Hlen.
  rewrite (model_import_run _ _ _ _ _ Hfile). cbn zeta.
  rewrite custom_init_success by (by rewrite ?length_fmap).
  eexists _, _. split; [reflexivity|].
  cbn [with_heap with_output heap]. rewrite lookup_insert_eq. done.
Qed.

Lemma import_as_initial_guess_raises_witness :
  files exported_world !! "model.json" = Some (JsonFile exported_resistor)
  ∧ ∃ w' m,
      ModelIO.model_import count_names "model.json" true exported_world
      = (inl unused_argument, w')
      ∧ heap w' !! 1 = Some m
      ∧ initial_guess m = Some [PyFloat 5]
      ∧ parameters_ m = None ∧ conf_ m = None.
Proof.
  split; [reflexivity|].
  apply (import_as_initial_guess_raises count_names "model.json"
           exported_resistor exported_world); reflexivity.
Defined.

(** C1: [model_import] with [as_initial_guess=False] builds a model whose
    [conf_] holds the values of the exported initial guess, not those of
    the exported confidence, and then raises in its [print] instead of
    returning it. *)
Theorem import_confidence_from_initial_guess calculateCircuitLength filepath d w :
  files w !! filepath = Some (JsonFile d) →
  forallb is_number (snd <$> doc_initial_guess d) = true →
  calculateCircuitLength (doc_circuit_string d)
  = inr (length (doc_initial_guess d)) →
  ∃ w' m,
    ModelIO.model_import calculateCircuitLength filepath false w
    = (inl unused_argument, w')
    ∧ heap w' !! fresh (dom (heap w)) = Some m
    ∧ initial_guess m = Some (snd <$> doc_initial_guess d)
    ∧ parameters_ m = Some (np_array (snd <$> doc_parameters d))
    ∧ conf_ m = Some (np_array (snd <$> doc_initial_guess d)).
Proof.
  intros Hfile Hnum Hlen.
  rewrite (model_import_run _ _ _ _ _ Hfile). cbn zeta.
  rewrite custom_init_success by (by rewrite ?length_fmap).
  cbn [with_heap with_output heap]. rewrite lookup_insert_eq.
  eexists _, _. split; [reflexivity|].
  cbn [with_heap heap]. rewrite lookup_insert_eq. done.
Qed.

Lemma import_confidence_from_initial_guess_witness :
  files exported_world !! "model.json" = Some (JsonFile exported_resistor)
  ∧ conf_ fitted_resistor = Some [NpFloat64 0.5]
  ∧ ∃ w' m,
      ModelIO.model_import count_names "model.json" false exported_world
      = (inl unused_argument, w')
      ∧ heap w' !! 1 = Some m
      ∧ initial_guess m = Some [PyFloat 7]
      ∧ parameters_ m = Some [NpFloat64 5]
      ∧ conf_ m = Some [NpFloat64 7].
Proof.
  split; [reflexivity|]. split; [reflexivity|].
  apply (import_confidence_from_initial_guess count_names "model.json"
           exported_resistor exported_world); reflexivity.
Defined.

(** * Further properties of the facade *)

(** ** What a computation leaves untouched *)

Section Frames.

Context {B : Type} (component : world → B).

Lemma preserves_ret {A} (a : A) : preserves component (ret a).
Proof. by intros w. Qed.

Lemma preserves_raise {A} (e : exn) : preserves component (@raise A e).
Proof. by intros w. Qed.

Lemma preserves_lift {A} (r : exn + A) : preserves component (lift r).
Proof. by intros w. Qed.

Lemma preserves_assert b msg : preserves component (assert b msg).
Proof. intros w. by destruct b. Qed.

Lemma preserves_deref self : preserves component (deref self).
Proof. intros w. unfold deref. by destruct (heap w !! self). Qed.

Lemma preserves_read_file path : preserves component (read_file path).
Proof. intros w. unfold read_file. by destruct (files w !! path). Qed.

Lemma preserves_bind {A C} (c : M A) (k : A → M C) :
  preserves component c → (∀ a, preserves component (k a)) →
  preserves component (bind c k).
Proof.
  intros Hc Hk w. unfold bind. specialize (Hc w).
  destruct (c w) as [[e|a] w1]; [done|]. cbn in Hc. by rewrite Hk.
Qed.

End Frames.

Section FrameFacts.

Lemma print_keeps_heap o : preserves heap (print o).
Proof. by intros w. Qed.
Lemma print_keeps_files o : preserves files (print o).
Proof. by intros w. Qed.
Lemma print_keeps_calls o : preserves calls (print o).
Proof. by intros w. Qed.

Lemma record_call_keeps_heap c : preserves heap (record_call c).
Proof. by intros w. Qed.
Lemma record_call_keeps_files c : preserves files (record_call c).
Proof. by intros w. Qed.
Lemma record_call_keeps_stdout c : preserves stdout (record_call c).
Proof. by intros w. Qed.

Lemma write_file_keeps_heap path f : preserves heap (write_file path f).
Proof. by intros w. Qed.
Lemma write_file_keeps_calls path f : preserves calls (write_file path f).
Proof. by intros w. Qed.

Lemma update_keeps_files self f : preserves files (update self f).
Proof. intros w. unfold update. by destruct (heap w !! self). Qed.
Lemma update_keeps_calls self f : preserves calls (update self f).
Proof. intros w. unfold update. by destruct (heap w !! self). Qed.
Lemma update_keeps_stdout self f : preserves stdout (update self f).
Proof. intros w. unfold update. by destruct (heap w !! self). Qed.

Lemma allocate_keeps_files m : preserves files (allocate m).
Proof. by intros w. Qed.
Lemma allocate_keeps_calls m : preserves calls (allocate m).
Proof. by intros w. Qed.
Lemma allocate_keeps_stdout m : preserves stdout (allocate m).
Proof. by intros w. Qed.

End FrameFacts.

(** Walks a computation bind by bind and branch by branch. *)
Ltac frame_step :=
  first
    [ apply preserves_ret | apply preserves_raise | apply preserves_lift
    | apply preserves_assert | apply preserves_deref | apply preserves_read_file
    | apply print_keeps_heap | apply print_keeps_files | apply print_keeps_calls
    | apply record_call_keeps_heap | apply record_call_keeps_files
    | apply record_call_keeps_stdout
    | apply write_file_keeps_heap | apply write_file_keeps_calls
    | apply update_keeps_files | apply update_keeps_calls
    | apply update_keeps_stdout
    | apply allocate_keeps_files | apply allocate_keeps_calls
    | apply allocate_keeps_stdout
    | assumption
    | apply preserves_bind; [|intros ?]
    | match goal with
      | |- preserves _ (match ?x with _ => _ end) => destruct x
      end ].

Ltac frame := repeat frame_step.

Section QueryFacts.

Context {B : Type} (component : world → B).

Lemma get_circuit_frame self : preserves component (get_circuit self).
Proof. unfold get_circuit. frame. Qed.

Lemma get_initial_guess_frame self :
  preserves component (get_initial_guess self).
Proof. unfold get_initial_guess. frame. Qed.

Lemma is_fit_frame self : preserves component (BaseCircuit._is_fit self).
Proof. unfold BaseCircuit._is_fit. frame. Qed.

Lemma method_get_param_names_frame self :
  preserves component (BaseCircuit.get_param_names self).
Proof.
  unfold BaseCircuit.get_param_names.
  apply preserves_bind; [apply get_circuit_frame|]. intros c. frame.
Qed.

Lemma str_frame self : preserves component (BaseCircuit.__str__ self).
Proof.
  unfold BaseCircuit.__str__.
  apply preserves_bind; [apply method_get_param_names_frame|]. intros names.
  apply preserves_bind; [frame|]. intros m.
  apply preserves_bind; [apply is_fit_frame|]. intros fitted.
  frame.
Qed.

Lemma get_verbose_string_frame self :
  preserves component (get_verbose_string self).
Proof.
  unfold get_verbose_string.
  apply preserves_bind; [apply method_get_param_names_frame|]. intros names.
  apply preserves_bind; [frame|]. intros m.
  apply preserves_bind; [apply get_circuit_frame|]. intros c.
  apply preserves_bind; [apply is_fit_frame|]. intros fitted.
  frame.
Qed.

Lemma check_initial_guess_frame l :
  preserves component (BaseCircuit.check_initial_guess l).
Proof.
  induction l as [|i l IH]; cbn [BaseCircuit.check_initial_guess]; frame.
Qed.

End QueryFacts.

(** X8: the queries of a model, [_is_fit], [get_param_names], [__str__] and
    [get_verbose_string], leave the world exactly as it was, whether they
    return or raise. *)
Theorem queries_leave_world self w :
  (BaseCircuit._is_fit self w).2 = w
  ∧ (BaseCircuit.get_param_names self w).2 = w
  ∧ (BaseCircuit.__str__ self w).2 = w
  ∧ (get_verbose_string self w).2 = w.
Proof.
  repeat split.
  - apply (is_fit_frame (λ w, w)).
  - apply (method_get_param_names_frame (λ w, w)).
  - apply (str_frame (λ w, w)).
  - apply (get_verbose_string_frame (λ w, w)).
Qed.

(** X7: [predict] never changes a model object or a file, whatever it is
    given and whether it returns or raises. *)
Theorem predict_read_only computeCircuit self frequencies use_initial w :
  let w' :=
    (BaseCircuit.predict computeCircuit self frequencies use_initial w).2 in
  heap w' = heap w ∧ files w' = files w.
Proof.
  cbn zeta. split.
  - revert w. change (preserves heap (BaseCircuit.predict computeCircuit self
                                        frequencies use_initial)).
    unfold BaseCircuit.predict.
    do 3 (apply preserves_bind; [frame|]; intros ?).
    apply preserves_bind; [apply is_fit_frame|]. intros fitted.
    destruct (fitted && negb use_initial);
      (apply preserves_bind; [frame|]; intros ?);
      (apply preserves_bind; [apply get_circuit_frame|]; intros ?); frame.
  - revert w. change (preserves files (BaseCircuit.predict computeCircuit self
                                         frequencies use_initial)).
    unfold BaseCircuit.predict.
    do 3 (apply preserves_bind; [frame|]; intros ?).
    apply preserves_bind; [apply is_fit_frame|]. intros fitted.
    destruct (fitted && negb use_initial);
      (apply preserves_bind; [frame|]; intros ?);
      (apply preserves_bind; [apply get_circuit_frame|]; intros ?); frame.
Qed.

(** X5: [model_export] never changes a model object and never calls the
    fitting module, whether it returns or raises. *)
Theorem export_keeps_models self filepath w :
  let w' := (ModelIO.model_export self filepath w).2 in
  heap w' = heap w ∧ calls w' = calls w.
Proof.
  cbn zeta. split.
  - revert w. change (preserves heap (ModelIO.model_export self filepath)).
    unfold ModelIO.model_export.
    apply preserves_bind; [apply get_circuit_frame|]. intros c.
    apply preserves_bind; [frame|]. intros m.
    apply preserves_bind; [apply method_get_param_names_frame|]. intros names.
    do 5 (apply preserves_bind; [frame|]; intros ?).
    apply preserves_bind; [apply str_frame|]. intros shown.
    frame.
  - revert w. change (preserves calls (ModelIO.model_export self filepath)).
    unfold ModelIO.model_export.
    apply preserves_bind; [apply get_circuit_frame|]. intros c.
    apply preserves_bind; [frame|]. intros m.
    apply preserves_bind; [apply method_get_param_names_frame|]. intros names.
    do 5 (apply preserves_bind; [frame|]; intros ?).
    apply preserves_bind; [apply str_frame|]. intros shown.
    frame.
Qed.

Section ConstructorFrames.

Variable calculateCircuitLength : string → exn + nat.

Lemma base_init_keeps_files guess nm alg bnds :
  preserves files (BaseCircuit.__init__ guess nm alg bnds).
Proof.
  unfold BaseCircuit.__init__.
  apply preserves_bind; [|intros ?; frame].
  destruct guess; [apply check_initial_guess_frame|frame].
Qed.

Lemma base_init_keeps_calls guess nm alg bnds :
  preserves calls (BaseCircuit.__init__ guess nm alg bnds).
Proof.
  unfold BaseCircuit.__init__.
  apply preserves_bind; [|intros ?; frame].
  destruct guess; [apply check_initial_guess_frame|frame].
Qed.

Lemma custom_init_keeps_files c guess nm alg bnds :
  preserves files (CustomCircuit.__init__ calculateCircuitLength c guess nm alg bnds).
Proof.
  unfold CustomCircuit.__init__.
  apply preserves_bind; [apply base_init_keeps_files|]. intros self.
  apply preserves_bind; [frame|]. intros ?.
  apply preserves_bind; [apply get_circuit_frame|]. intros ?.
  apply preserves_bind; [frame|]. intros ?.
  apply preserves_bind; [apply get_initial_guess_frame|]. intros ?.
  frame.
Qed.

Lemma custom_init_keeps_calls c guess nm alg bnds :
  preserves calls (CustomCircuit.__init__ calculateCircuitLength c guess nm alg bnds).
Proof.
  unfold CustomCircuit.__init__.
  apply preserves_bind; [apply base_init_keeps_calls|]. intros self.
  apply preserves_bind; [frame|]. intros ?.
  apply preserves_bind; [apply get_circuit_frame|]. intros ?.
  apply preserves_bind; [frame|]. intros ?.
  apply preserves_bind; [apply get_initial_guess_frame|]. intros ?.
  frame.
Qed.

End ConstructorFrames.

(** X6: [model_import] never writes a file and never calls [circuit_fit]
    or [computeCircuit], whatever the path holds. *)
Theorem import_keeps_files calculateCircuitLength filepath as_initial_guess w :
  let w' :=
    (ModelIO.model_import calculateCircuitLength filepath as_initial_guess w).2 in
  files w' = files w ∧ calls w' = calls w.
Proof.
  cbn zeta. split.
  - revert w.
    change (preserves files (ModelIO.model_import calculateCircuitLength filepath
                               as_initial_guess)).
    unfold ModelIO.model_import.
    do 3 (apply preserves_bind; [frame|]; intros ?).
    apply preserves_bind.
    { destruct as_initial_guess; [apply custom_init_keeps_files|].
      apply preserves_bind; [apply custom_init_keeps_files|]. intros ?. frame. }
    intros ?. do 2 (apply preserves_bind; [frame|]; intros ?).
    apply preserves_bind; [apply str_frame|]. intros ?. frame.
  - revert w.
    change (preserves calls (ModelIO.model_import calculateCircuitLength filepath
                               as_initial_guess)).
    unfold ModelIO.model_import.
    do 3 (apply preserves_bind; [frame|]; intros ?).
    apply preserves_bind.
    { destruct as_initial_guess; [apply custom_init_keeps_calls|].
      apply preserves_bind; [apply custom_init_keeps_calls|]. intros ?. frame. }
    intros ?. do 2 (apply preserves_bind; [frame|]; intros ?).
    apply preserves_bind; [apply str_frame|]. intros ?. frame.
Qed.

(** ** Fitting, then predicting or printing *)

(** X9: [fit] touches nothing but [parameters_] and [conf_] of the model
    it is called on: files and printed output stay, every other object
    stays, the other attributes of the model stay, and the fitting engine
    is called at most once, with the stored initial guess. *)
Theorem fit_frame circuit_fit self frequencies impedance w :
  let w' := (BaseCircuit.fit circuit_fit self frequencies impedance w).2 in
  files w' = files w ∧ stdout w' = stdout w
  ∧ (∀ other, other ≠ self → heap w' !! other = heap w !! other)
  ∧ (∀ m, heap w !! self = Some m →
       ∃ m', heap w' !! self = Some m'
             ∧ circuit m' = circuit m ∧ name m' = name m
             ∧ initial_guess m' = initial_guess m
             ∧ algorithm m' = algorithm m ∧ bounds m' = bounds m)
  ∧ (calls w' = calls w
     ∨ ∃ m c guess,
         heap w !! self = Some m ∧ circuit m = Some c
         ∧ initial_guess m = Some guess
         ∧ calls w' = calls w ++ [CircuitFit frequencies impedance c guess
                                    (algorithm m) (bounds m)]).
Proof.
  cbn zeta. rewrite fit_run.
  assert (∀ v : world,
            v = w →
            files v = files w ∧ stdout v = stdout w
            ∧ (∀ other, other ≠ self → heap v !! other = heap w !! other)
            ∧ (∀ m, heap w !! self = Some m →
                 ∃ m', heap v !! self = Some m'
                       ∧ circuit m' = circuit m ∧ name m' = name m
                       ∧ initial_guess m' = initial_guess m
                       ∧ algorithm m' = algorithm m ∧ bounds m' = bounds m)
            ∧ (calls v = calls w
               ∨ ∃ m c guess,
                   heap w !! self = Some m ∧ circuit m = Some c
                   ∧ initial_guess m = Some guess
                   ∧ calls v = calls w ++ [CircuitFit frequencies impedance c guess
                                             (algorithm m) (bounds m)])) as Hsame.
  { intros v ->. repeat split; try done; [|by left].
    intros m Hm. by exists m. }
  destruct (fit_input_error frequencies impedance); [by apply Hsame|].
  destruct (heap w !! self) as [m|] eqn:Hm; [|by apply Hsame].
  destruct (initial_guess m) as [guess|] eqn:Hg; [|by apply Hsame].
  destruct (circuit m) as [c|] eqn:Hc; [|by apply Hsame].
  clear Hsame.
  cbn zeta.
  destruct (circuit_fit _ _ _ _ _ _) as [e|[parameters conf]].
  - cbn [snd with_call heap files calls stdout].
    split; [done|]. split; [done|]. split; [done|]. split.
    + intros m0 [= <-]. by exists m.
    + right. by exists m, c, guess.
  - cbn [snd with_heap with_call heap files calls stdout].
    split; [done|]. split; [done|]. split; [|split].
    + intros other Hne. by rewrite lookup_insert_ne.
    + intros m0 [= <-]. exists (store_fit parameters conf m).
      rewrite lookup_insert_eq. by destruct conf.
    + right. by exists m, c, guess.
Qed.

(** X10: after a [fit] that returned, [predict] hands the Evaluator the
    parameters the engine returned, as a list, and with [use_initial] the
    initial guess the fit started from. *)
Theorem fit_then_predict circuit_fit computeCircuit self frequencies impedance
    w r w' :
  BaseCircuit.fit circuit_fit self frequencies impedance w = (inr r, w') →
  ∃ m c guess parameters conf,
    heap w !! self = Some m ∧ circuit m = Some c ∧ initial_guess m = Some guess
    ∧ circuit_fit frequencies impedance c guess (algorithm m) (bounds m)
      = inr (parameters, conf)
    ∧ ∀ f0 fa, is_number f0 = true →
        (BaseCircuit.predict computeCircuit self (NdArray (f0 :: fa)) false w').1
        = computeCircuit c (Some (tolist parameters)) (tolist (f0 :: fa))
        ∧ (BaseCircuit.predict computeCircuit self (NdArray (f0 :: fa)) true w').1
          = computeCircuit c (Some guess) (tolist (f0 :: fa)).
Proof.
  rewrite fit_run.
  destruct (fit_input_error frequencies impedance); [done|].
  destruct (heap w !! self) as [m|] eqn:Hm; [|done].
  destruct (initial_guess m) as [guess|] eqn:Hg; [|done].
  destruct (circuit m) as [c|] eqn:Hc; [|done].
  cbn zeta.
  destruct (circuit_fit _ _ _ _ _ _) as [e|[parameters conf]] eqn:Hfit; [done|].
  intros [= <- <-]. exists m, c, guess, parameters, conf.
  repeat split; try done;
    rewrite predict_run by done;
    cbn [with_heap with_call heap]; rewrite lookup_insert_eq; cbn zeta;
    unfold chosen_parameters;
    destruct conf; cbn [store_fit set_conf_ set_parameters_ circuit parameters_
                        initial_guess]; by rewrite ?Hc, ?Hg.
Qed.

Lemma fit_then_predict_witness :
  ∃ m c guess parameters conf,
    heap resistor_world !! 0 = Some m ∧ circuit m = Some c
    ∧ initial_guess m = Some guess
    ∧ fit_with_covariance two_frequencies two_impedances c guess (algorithm m)
        (bounds m) = inr (parameters, conf)
    ∧ ∀ f0 fa, is_number f0 = true →
        (BaseCircuit.predict resistor_evaluator 0 (NdArray (f0 :: fa)) false
           (BaseCircuit.fit fit_with_covariance 0 two_frequencies two_impedances
              resistor_world).2).1
        = resistor_evaluator c (Some (tolist parameters)) (tolist (f0 :: fa))
        ∧ (BaseCircuit.predict resistor_evaluator 0 (NdArray (f0 :: fa)) true
             (BaseCircuit.fit fit_with_covariance 0 two_frequencies two_impedances
                resistor_world).2).1
          = resistor_evaluator c (Some guess) (tolist (f0 :: fa)).
Proof.
  apply (fit_then_predict fit_with_covariance resistor_evaluator 0 two_frequencies
           two_impedances resistor_world 0).
  reflexivity.
Defined.

(** ** Printing *)

Section PrintingFacts.

Lemma is_fit_run self m w :
  heap w !! self = Some m →
  BaseCircuit._is_fit self w
  = (inr (bool_decide (parameters_ m ≠ None)), w).
Proof.
  intros Hm. unfold BaseCircuit._is_fit, bind. rewrite (deref_run _ _ _ Hm).
  by destruct (parameters_ m).
Qed.

Lemma str_run self m c w :
  heap w !! self = Some m → circuit m = Some c →
  BaseCircuit.__str__ self w = (str_outcome m c, w).
Proof.
  intros Hm Hc. unfold BaseCircuit.__str__, str_outcome.
  unfold bind at 1. rewrite (method_get_param_names_run _ _ _ _ Hm Hc).
  unfold bind at 1. rewrite (deref_run _ _ _ Hm).
  unfold bind at 1. rewrite (is_fit_run _ _ _ Hm).
  unfold bind, lift, raise, ret.
  destruct (parameters_ m) as [p|].
  - destruct (conf_ m) as [cf|]; [|done]. by destruct (format_all _).
  - destruct (initial_guess m) as [g|]; [|done]. by destruct (format_all _).
Qed.

Lemma get_verbose_string_run self m c w :
  heap w !! self = Some m → circuit m = Some c →
  get_verbose_string self w = (verbose_outcome m c, w).
Proof.
  intros Hm Hc. unfold get_verbose_string, verbose_outcome.
  unfold bind at 1. rewrite (method_get_param_names_run _ _ _ _ Hm Hc).
  unfold bind at 1. rewrite (deref_run _ _ _ Hm).
  unfold bind at 1. rewrite (get_circuit_run _ _ _ Hm), Hc.
  unfold bind at 1. rewrite (is_fit_run _ _ _ Hm).
  unfold bind, lift, raise, ret.
  destruct (initial_guess m) as [g|]; [|done].
  destruct (format_guess_lines _) as [e|guesses]; [done|].
  destruct (parameters_ m) as [p|]; [|done].
  destruct (conf_ m) as [cf|]; [|done].
  by destruct (format_fit_lines _).
Qed.

Lemma is_number_printable v :
  is_number v = true → (∀ z, v = PyInt z → fits_double z = true) →
  printable v = true.
Proof. destruct v; try done. intros _ Hz. by apply Hz. Qed.

Lemma format_all_printable l :
  Forall (λ v, printable v = true) l → format_all l = inr tt.
Proof.
  induction 1 as [|v l Hv _ IH]; [done|].
  cbn [format_all]. destruct v; cbn [format_2e printable] in *; try done.
  by rewrite Hv.
Qed.

Lemma format_guess_lines_printable (l : list (string * scalar)) :
  Forall (λ nv, printable nv.2 = true) l → format_guess_lines l = inr l.
Proof.
  induction 1 as [|[n v] l Hv _ IH]; [done|].
  cbn [format_guess_lines]. rewrite IH.
  destruct v; cbn [format_2e printable snd] in *; try done.
  by rewrite Hv.
Qed.

Lemma numbers_printable l :
  forallb is_number l = true →
  (∀ z, PyInt z ∈ l → fits_double z = true) →
  Forall (λ v, printable v = true) l.
Proof.
  intros H Hz. apply Forall_forall. intros v Hv.
  apply is_number_printable.
  - rewrite forallb_forall in H. apply H. by apply list_elem_of_In.
  - intros z ->. by apply Hz.
Qed.

Lemma zip_printable (names : list string) (l : list scalar) :
  Forall (λ v, printable v = true) l →
  Forall (λ nv : string * scalar, printable nv.2 = true) (zip names l).
Proof.
  intros H. revert names. induction H as [|v l Hv _ IH]; intros [|n names];
    cbn; constructor; auto.
Qed.

End PrintingFacts.

(** ** What the constructors build *)

Section ConstructionFacts.

Variable calculateCircuitLength : string → exn + nat.

Lemma not_numbers_only guess v :
  v ∈ guess → is_number v = false → forallb is_number guess = false.
Proof.
  induction 1 as [v l|u v l _ IH]; intros Hv; cbn [forallb].
  - by rewrite Hv.
  - rewrite IH by done. apply andb_false_r.
Qed.

Lemma checked_construction_inv msg c m w self w' :
  checked_construction calculateCircuitLength msg c m w = (inr self, w') →
  self = fresh (dom (heap w))
  ∧ w' = with_heap (<[self := m]> (heap w)) w
  ∧ ∃ g, initial_guess m = Some g ∧ calculateCircuitLength c = inr (length g).
Proof.
  unfold checked_construction.
  destruct (calculateCircuitLength c) as [e|n]; [done|].
  destruct (initial_guess m) as [g|]; [|done].
  destruct (length g =? n) eqn:Hlen; [|done].
  intros [= <- <-]. apply Nat.eqb_eq in Hlen as <-. eauto.
Qed.

Lemma fresh_unused (h : gmap loc model) : h !! fresh (dom h) = None.
Proof. apply not_elem_of_dom, is_fresh. Qed.

End ConstructionFacts.

(** X12: an initial guess that holds anything but a [float], [int],
    [np.int32] or [np.float64] makes both constructors raise before an
    object is created; NumPy's [int64] and [float32] are among the
    refused. *)
Theorem constructors_reject_non_numbers calculateCircuitLength c CPE guess v nm
    alg bnds w :
  v ∈ guess → is_number v = false →
  CustomCircuit.__init__ calculateCircuitLength c (Some guess) nm alg bnds w
  = (inl (AssertionError "value in initial_guess is not a number"), w)
  ∧ Randles.__init__ calculateCircuitLength CPE (Some guess) nm alg bnds w
    = (inl (AssertionError "value in initial_guess is not a number"), w).
Proof.
  intros Hv Hnum. rewrite custom_init_run, randles_init_run.
  cbn [numbers_only]. by rewrite (not_numbers_only _ _ Hv Hnum).
Qed.

Lemma constructors_reject_non_numbers_witness :
  CustomCircuit.__init__ count_names "R_0-C_1" (Some [PyFloat 1; NpInt64 2]) None
    "leastsq" PyNone resistor_world
  = (inl (AssertionError "value in initial_guess is not a number"), resistor_world)
  ∧ Randles.__init__ count_names false (Some [PyFloat 1; NpInt64 2]) None
      "leastsq" PyNone resistor_world
    = (inl (AssertionError "value in initial_guess is not a number"),
       resistor_world).
Proof.
  apply (constructors_reject_non_numbers count_names "R_0-C_1" false
           [PyFloat 1; NpInt64 2] (NpInt64 2)).
  - apply list_elem_of_In. right. left. reflexivity.
  - reflexivity.
Defined.

(** X13: without an initial guess, the default of the argument, neither
    constructor ever returns a model. *)
Theorem constructors_require_initial_guess calculateCircuitLength c CPE nm alg
    bnds w :
  (∃ e w', CustomCircuit.__init__ calculateCircuitLength c None nm alg bnds w
           = (inl e, w'))
  ∧ (∃ e w', Randles.__init__ calculateCircuitLength CPE None nm alg bnds w
             = (inl e, w')).
Proof.
  rewrite custom_init_run, randles_init_run. cbn [numbers_only].
  unfold checked_construction. cbn [initial_guess].
  split; destruct (calculateCircuitLength _); eauto.
Qed.

(** X14: the model [CustomCircuit] returns is a new object, stored under a
    reference that was not in use, with the arguments as given and no fit;
    no other object changes. *)
Theorem custom_circuit_is_fresh_and_unfitted calculateCircuitLength c given nm
    alg bnds w self w' :
  CustomCircuit.__init__ calculateCircuitLength c given nm alg bnds w
  = (inr self, w') →
  heap w !! self = None
  ∧ heap w' = <[self := Model (Some c) nm given alg bnds None None]> (heap w)
  ∧ (BaseCircuit._is_fit self w').1 = inr false.
Proof.
  rewrite custom_init_run. destruct (numbers_only given); [|done].
  intros (-> & -> & _)%checked_construction_inv.
  split; [apply fresh_unused|]. split; [done|].
  rewrite (is_fit_run _ (Model (Some c) nm given alg bnds None None)); [done|].
  cbn [with_heap heap]. apply lookup_insert_eq.
Qed.

Lemma custom_circuit_is_fresh_and_unfitted_witness :
  heap resistor_world !! 1 = None
  ∧ heap (CustomCircuit.__init__ count_names "R_0" (Some [PyFloat 1]) None
            "leastsq" PyNone resistor_world).2
    = <[1 := Model (Some "R_0") None (Some [PyFloat 1]) "leastsq" PyNone None None]>
        (heap resistor_world)
  ∧ (BaseCircuit._is_fit 1
       (CustomCircuit.__init__ count_names "R_0" (Some [PyFloat 1]) None
          "leastsq" PyNone resistor_world).2).1 = inr false.
Proof.
  apply (custom_circuit_is_fresh_and_unfitted count_names "R_0" (Some [PyFloat 1])
           None "leastsq" PyNone resistor_world 1).
  vm_compute. reflexivity.
Defined.

(** X15: [Randles] discards the name it is given: the model it returns is
    named after the circuit it chose, 'Randles' or 'Randles w/ CPE'. *)
Theorem randles_overrides_name calculateCircuitLength CPE given nm alg bnds w
    self w' :
  Randles.__init__ calculateCircuitLength CPE given nm alg bnds w = (inr self, w') →
  heap w' !! self
  = Some (Model (Some (randles_circuit CPE)) (Some (randles_name CPE)) given alg
            bnds None None).
Proof.
  rewrite randles_init_run. destruct (numbers_only given); [|done].
  intros (-> & -> & _)%checked_construction_inv.
  cbn [with_heap heap]. apply lookup_insert_eq.
Qed.

Lemma randles_overrides_name_witness :
  heap (Randles.__init__ count_names false
          (Some [PyFloat 1; PyFloat 2; PyFloat 3; PyFloat 4; PyFloat 5])
          (Some "my cell") "leastsq" PyNone resistor_world).2 !! 1
  = Some (Model (Some "R_0-p(R_1,C_1)-W_1/W_2") (Some "Randles")
            (Some [PyFloat 1; PyFloat 2; PyFloat 3; PyFloat 4; PyFloat 5])
            "leastsq" PyNone None None).
Proof.
  apply (randles_overrides_name count_names false
           (Some [PyFloat 1; PyFloat 2; PyFloat 3; PyFloat 4; PyFloat 5])
           (Some "my cell") "leastsq" PyNone resistor_world 1).
  vm_compute. reflexivity.
Defined.

(** X16: a model that [CustomCircuit] returned, and whose initial guess
    holds no integer beyond the range of a double, can be printed:
    [__str__] returns, and [get_verbose_string] lists the name tokens of
    the circuit against the initial guess, in order, and no fit. *)
Theorem constructed_model_prints calculateCircuitLength c guess nm alg bnds w
    self w' :
  CustomCircuit.__init__ calculateCircuitLength c (Some guess) nm alg bnds w
  = (inr self, w') →
  (∀ z, PyInt z ∈ guess → fits_double z = true) →
  BaseCircuit.__str__ self w'
  = (inr (ModelStr (Model (Some c) nm (Some guess) alg bnds None None)), w')
  ∧ get_verbose_string self w'
    = (inr (Verbose nm c alg false (zip (get_param_names c) guess) []), w').
Proof.
  rewrite custom_init_run.
  destruct (numbers_only (Some guess)) eqn:Hnum; [|done].
  intros (-> & -> & _)%checked_construction_inv Hz.
  cbn [numbers_only] in Hnum.
  pose proof (numbers_printable _ Hnum Hz) as Hprint.
  set (m := Model (Some c) nm (Some guess) alg bnds None None).
  assert (heap (with_heap (<[fresh (dom (heap w)) := m]> (heap w)) w)
            !! fresh (dom (heap w)) = Some m) as Hm
    by (cbn [with_heap heap]; apply lookup_insert_eq).
  split.
  - rewrite (str_run _ m c) by done. unfold str_outcome.
    cbn [parameters_ initial_guess m].
    by rewrite format_all_printable by by apply Forall_take.
  - rewrite (get_verbose_string_run _ m c) by done. unfold verbose_outcome.
    cbn [parameters_ initial_guess name algorithm m].
    by rewrite format_guess_lines_printable by by apply zip_printable.
Qed.

Lemma constructed_model_prints_witness :
  BaseCircuit.__str__ 1
    (CustomCircuit.__init__ count_names "R_0-C_1" (Some [PyFloat 1; PyInt 2])
       None "leastsq" PyNone resistor_world).2
  = (inr (ModelStr (Model (Some "R_0-C_1") None (Some [PyFloat 1; PyInt 2])
                      "leastsq" PyNone None None)),
     (CustomCircuit.__init__ count_names "R_0-C_1" (Some [PyFloat 1; PyInt 2])
        None "leastsq" PyNone resistor_world).2)
  ∧ get_verbose_string 1
      (CustomCircuit.__init__ count_names "R_0-C_1" (Some [PyFloat 1; PyInt 2])
         None "leastsq" PyNone resistor_world).2
    = (inr (Verbose None "R_0-C_1" "leastsq" false
              (zip (get_param_names "R_0-C_1") [PyFloat 1; PyInt 2]) []),
       (CustomCircuit.__init__ count_names "R_0-C_1" (Some [PyFloat 1; PyInt 2])
          None "leastsq" PyNone resistor_world).2).
Proof.
  apply (constructed_model_prints count_names "R_0-C_1" [PyFloat 1; PyInt 2]
           None "leastsq" PyNone resistor_world 1).
  - vm_compute. reflexivity.
  - intros z Hz. apply list_elem_of_In in Hz.
    destruct Hz as [Hz|[Hz|[]]]; [discriminate Hz|].
    injection Hz as <-. reflexivity.
Defined.

(** The guess [[10**400]] passes the constructor's check, being an [int],
    and the model it makes cannot be printed. *)
Lemma huge_guess_does_not_print :
  (CustomCircuit.__init__ count_names "R_0" (Some [PyInt (10 ^ 400)]) None
     "leastsq" PyNone resistor_world).1 = inr 1
  ∧ (BaseCircuit.__str__ 1
       (CustomCircuit.__init__ count_names "R_0" (Some [PyInt (10 ^ 400)]) None
          "leastsq" PyNone resistor_world).2).1
    = inl (OverflowError "int too large to convert to float").
Proof. split; vm_compute; reflexivity. Qed.

(** X11: when the engine estimates no covariance, a first [fit] leaves a
    model that reports itself fit and that [__str__] and
    [get_verbose_string] cannot print. *)
Theorem fit_without_confidence_breaks_printing circuit_fit self m frequencies
    impedance w r w' :
  without_confidence circuit_fit →
  heap w !! self = Some m → conf_ m = None →
  BaseCircuit.fit circuit_fit self frequencies impedance w = (inr r, w') →
  (BaseCircuit._is_fit self w').1 = inr true
  ∧ BaseCircuit.__str__ self w'
    = (inl (TypeError "'NoneType' object is not iterable"), w')
  ∧ ∃ e, get_verbose_string self w' = (inl e, w').
Proof.
  intros Hnone Hm Hconf. rewrite fit_run, Hm.
  destruct (fit_input_error frequencies impedance); [done|].
  destruct (initial_guess m) as [guess|] eqn:Hg; [|done].
  destruct (circuit m) as [c|] eqn:Hc; [|done].
  cbn zeta.
  destruct (circuit_fit _ _ _ _ _ _) as [e|[parameters conf]] eqn:Hfit; [done|].
  apply Hnone in Hfit as ->. intros [= <- <-].
  set (m' := store_fit parameters None m).
  assert (heap (with_heap (<[self := m']> (heap w))
                  (with_call (CircuitFit frequencies impedance c guess
                                (algorithm m) (bounds m)) w)) !! self = Some m')
    as Hm' by (cbn [with_heap heap]; apply lookup_insert_eq).
  assert (circuit m' = Some c) as Hc' by done.
  split; [by rewrite (is_fit_run _ m')|]. split.
  - rewrite (str_run _ m' c) by done. unfold str_outcome.
    cbn [m' store_fit set_parameters_ parameters_ conf_]. by rewrite Hconf.
  - rewrite (get_verbose_string_run _ m' c) by done. unfold verbose_outcome.
    cbn [m' store_fit set_parameters_ parameters_ conf_ initial_guess].
    rewrite Hg, Hconf. destruct (format_guess_lines _); eauto.
Qed.

Lemma fit_without_confidence_breaks_printing_witness :
  (BaseCircuit._is_fit 0
     (BaseCircuit.fit fit_without_covariance 0 two_frequencies two_impedances
        unfitted_world).2).1 = inr true
  ∧ BaseCircuit.__str__ 0
      (BaseCircuit.fit fit_without_covariance 0 two_frequencies two_impedances
         unfitted_world).2
    = (inl (TypeError "'NoneType' object is not iterable"),
       (BaseCircuit.fit fit_without_covariance 0 two_frequencies two_impedances
          unfitted_world).2)
  ∧ ∃ e,
      get_verbose_string 0
        (BaseCircuit.fit fit_without_covariance 0 two_frequencies two_impedances
           unfitted_world).2
      = (inl e,
         (BaseCircuit.fit fit_without_covariance 0 two_frequencies two_impedances
            unfitted_world).2).
Proof.
  apply (fit_without_confidence_breaks_printing fit_without_covariance 0
           unfitted_resistor two_frequencies two_impedances unfitted_world 0).
  - intros f z c g a b p conf [= _ <-]. reflexivity.
  - reflexivity.
  - reflexivity.
  - reflexivity.
Defined.

(** ** What export writes *)

Section ExportRun.

Lemma enumerate_pairs_some names index l :
  index + length names ≤ length l →
  enumerate_pairs names index (Some l) = inr (zip names (drop index l)).
Proof.
  revert index. induction names as [|n names IH]; intros index Hlen; [done|].
  cbn [length] in Hlen. cbn [enumerate_pairs getitem].
  destruct (l !! index) as [v|] eqn:Hv.
  - rewrite IH by lia. by rewrite (drop_S _ _ _ Hv).
  - apply lookup_ge_None in Hv. lia.
Qed.

Lemma enumerate_pairs_short names index l :
  index ≤ length l → length l < index + length names →
  enumerate_pairs names index (Some l) = inl (IndexError "index out of range").
Proof.
  revert index. induction names as [|n names IH]; intros index Hle Hlen.
  - cbn [length] in Hlen. lia.
  - cbn [length] in Hlen. cbn [enumerate_pairs getitem].
    destruct (l !! index) as [v|] eqn:Hv; [|done].
    apply lookup_lt_Some in Hv. rewrite IH by lia. done.
Qed.









End ExportRun.



(** X2: when [initial_guess], [parameters_] or [conf_] has fewer entries
    than the circuit has name tokens, [model_export] raises [IndexError]
    before it prints or opens anything. *)
Theorem export_short_vector_raises self m c guess ps cf filepath w :
  heap w !! self = Some m → circuit m = Some c →
  initial_guess m = Some guess → parameters_ m = Some ps → conf_ m = Some cf →
  length guess < length (get_param_names c)
  ∨ length ps < length (get_param_names c)
  ∨ length cf < length (get_param_names c) →
  ModelIO.model_export self filepath w
  = (inl (IndexError "index out of range"), w).
Proof.
  intros Hm Hc Hg Hp Hcf Hshort.
  unfold ModelIO.model_export.
  unfold bind at 1. rewrite (get_circuit_run _ _ _ Hm), Hc.
  unfold bind at 1. rewrite (deref_run _ _ _ Hm).
  unfold bind at 1. rewrite (method_get_param_names_run _ _ _ _ Hm Hc).
  rewrite Hg, Hp, Hcf.
  unfold bind at 1, lift at 1.
  destruct (decide (length guess < length (get_param_names c))) as [?|?].
  { by rewrite enumerate_pairs_short by (cbn; lia). }
  rewrite enumerate_pairs_some by (cbn; lia).
  unfold bind at 1, lift at 1.
  destruct (decide (length ps < length (get_param_names c))) as [?|?].
  { by rewrite enumerate_pairs_short by (cbn; lia). }
  rewrite enumerate_pairs_some by (cbn; lia).
  unfold bind at 1, lift at 1.
  by rewrite enumerate_pairs_short by (cbn; lia).
Qed.

Lemma export_short_vector_raises_witness :
  ModelIO.model_export 0 "model.json" short_world
  = (inl (IndexError "index out of range"), short_world).
Proof.
  apply (export_short_vector_raises 0 short_model "R_0-C_1" [PyFloat 7]
           [NpFloat64 5] [NpFloat64 0.5] "model.json" short_world);
    try reflexivity.
  left. vm_compute. lia.
Defined.



(** ** Name tokens of arbitrary circuit strings *)

Section NameFacts.

Lemma count_char_app c (a b : string) :
  count_char c (a +:+ b) = count_char c a + count_char c b.
Proof.
  induction a as [|d a IH]; [done|].
  rewrite app_cons. cbn [count_char]. rewrite IH. lia.
Qed.

Lemma length_split sep s : length (PyString.split sep s) = S (count_char sep s).
Proof.
  induction s as [|c s IH]; [done|].
  cbn [PyString.split count_char].
  destruct (Ascii.eqb c sep); cbn [length].
  - by rewrite IH.
  - destruct (PyString.split sep s) as [|piece rest]; [done|].
    cbn [length] in *. lia.
Qed.

Lemma split_app sep (a b : string) :
  PyString.split sep (a +:+ String sep b)
  = PyString.split sep a ++ PyString.split sep b.
Proof.
  induction a as [|c a IH].
  - rewrite app_empty_l. cbn [PyString.split]. by rewrite Ascii.eqb_refl.
  - rewrite app_cons. cbn [PyString.split]. rewrite IH.
    destruct (Ascii.eqb c sep); [done|].
    pose proof (split_nonempty sep a) as Hne.
    by destruct (PyString.split sep a).
Qed.

Lemma strip_cons c s : strip (String c s) = strip_char c +:+ strip s.
Proof.
  change (String c s) with (String c "" +:+ s). rewrite strip_app. f_equal.
  unfold strip, strip_char. cbn [PyString.replace].
  destruct (Ascii.eqb_spec c "p") as [->|?]; [reflexivity|].
  cbn [PyString.replace].
  destruct (Ascii.eqb_spec c "(") as [->|?]; [reflexivity|].
  cbn [PyString.replace].
  destruct (Ascii.eqb_spec c ")") as [->|?]; [reflexivity|].
  cbn [PyString.replace].
  destruct (Ascii.eqb_spec c ",") as [->|?]; [reflexivity|].
  cbn [PyString.replace].
  destruct (Ascii.eqb_spec c "/") as [->|?]; reflexivity.
Qed.

Lemma count_dash_strip_char c :
  count_char "-" (strip_char c)
  = count_char "," (String c "") + count_char "/" (String c "")
    + count_char "-" (String c "").
Proof.
  unfold strip_char. cbn [count_char].
  destruct (Ascii.eqb_spec c "p") as [->|?]; [reflexivity|].
  destruct (Ascii.eqb_spec c "(") as [->|?]; [reflexivity|].
  destruct (Ascii.eqb_spec c ")") as [->|?]; [reflexivity|].
  destruct (Ascii.eqb_spec c ",") as [->|?]; [reflexivity|].
  destruct (Ascii.eqb_spec c "/") as [->|?]; [reflexivity|].
  cbn [count_char]. lia.
Qed.

Lemma count_dash_strip s : count_char "-" (strip s) = separators s.
Proof.
  unfold separators. induction s as [|c s IH]; [done|].
  rewrite strip_cons, count_char_app, IH, count_dash_strip_char.
  cbn [count_char]. lia.
Qed.

Lemma dashed_app (a b : string) : dashed (a +:+ b) = dashed a && dashed b.
Proof.
  induction a as [|c a IH]; [done|].
  rewrite app_cons. cbn [dashed]. rewrite IH. by rewrite andb_assoc.
Qed.

Lemma dashed_strip_char c : dashed (strip_char c) = true.
Proof.
  unfold strip_char.
  destruct (Ascii.eqb_spec c "p") as [->|?]; [reflexivity|].
  destruct (Ascii.eqb_spec c "(") as [->|?]; [reflexivity|].
  destruct (Ascii.eqb_spec c ")") as [->|?]; [reflexivity|].
  destruct (Ascii.eqb_spec c ",") as [->|?]; [reflexivity|].
  destruct (Ascii.eqb_spec c "/") as [->|?]; [reflexivity|].
  cbn [dashed]. rewrite andb_true_r.
  destruct (Ascii.eqb_spec c "-") as [->|?]; [reflexivity|].
  cbn [orb]. apply negb_true_iff, bool_decide_eq_false.
  rewrite !elem_of_cons, elem_of_nil.
  intros [?|[?|[?|[?|[?|[?|[]]]]]]]; congruence.
Qed.

Lemma dashed_strip s : dashed (strip s) = true.
Proof.
  induction s as [|c s IH]; [done|].
  by rewrite strip_cons, dashed_app, dashed_strip_char, IH.
Qed.

Lemma split_dashed s :
  dashed s = true → Forall (λ n, plain n = true) (PyString.split "-" s).
Proof.
  induction s as [|c s IH]; [by repeat constructor|].
  cbn [dashed PyString.split]. intros [Hc Hs]%andb_true_iff.
  specialize (IH Hs).
  destruct (Ascii.eqb c "-") eqn:Hdash; [by constructor|].
  cbn [orb] in Hc.
  destruct (PyString.split "-" s) as [|piece rest].
  - constructor; [|done]. cbn [plain]. by rewrite Hc.
  - apply Forall_cons_1 in IH as [Hpiece Hrest].
    constructor; [|done]. cbn [plain]. by rewrite Hc, Hpiece.
Qed.

End NameFacts.

(** X17: on any circuit string, [get_param_names] returns one name more
    than the string has separators [,], [/] and [-]; in particular it never
    returns an empty list. *)
Theorem get_param_names_count s :
  length (get_param_names s) = S (separators s).
Proof. by rewrite get_param_names_strip, length_split, count_dash_strip. Qed.

(** X18: no name [get_param_names] returns holds a [p], a parenthesis, a
    comma, a slash or a dash, whatever the circuit string: these characters
    are removed from element names too. *)
Theorem get_param_names_plain s :
  Forall (λ n, plain n = true) (get_param_names s).
Proof. rewrite get_param_names_strip. apply split_dashed, dashed_strip. Qed.

(** X19: the names of a series [a-b], of two branches [a,b] and of two
    sub-parameters [a/b] are the names of [a] followed by those of [b], and
    wrapping in [p(..)] changes nothing, for any strings [a] and [b]. *)
Theorem get_param_names_compose a b :
  get_param_names (a +:+ "-" +:+ b) = get_param_names a ++ get_param_names b
  ∧ get_param_names (a +:+ "," +:+ b) = get_param_names a ++ get_param_names b
  ∧ get_param_names (a +:+ "/" +:+ b) = get_param_names a ++ get_param_names b
  ∧ get_param_names ("p(" +:+ a +:+ ")") = get_param_names a.
Proof.
  rewrite !get_param_names_strip, !strip_app.
  change (strip "-") with "-". change (strip ",") with "-".
  change (strip "/") with "-". change (strip "p(") with "".
  change (strip ")") with "".
  rewrite app_empty_l, app_empty_r.
  change ("-" +:+ strip b) with (String "-"%char (strip b)).
  by rewrite split_app.
Qed.

(** X20: before any fit, [use_initial] makes no difference to [predict]:
    the result, the printed line and the call of the Evaluator are the same. *)
Theorem predict_before_fit_ignores_use_initial computeCircuit self m frequencies w :
  heap w !! self = Some m → parameters_ m = None →
  BaseCircuit.predict computeCircuit self frequencies true w
  = BaseCircuit.predict computeCircuit self frequencies false w.
Proof.
  intros Hm Hp. unfold BaseCircuit.predict, BaseCircuit._is_fit. unfold_py.
  destruct frequencies as [|l|[|f0 fa]|v]; try reflexivity.
  cbn [is_ndarray first]. destruct (is_number f0); [|reflexivity].
  rewrite Hm, Hp. reflexivity.
Qed.

Lemma predict_before_fit_ignores_use_initial_witness :
  BaseCircuit.predict resistor_evaluator 0 two_frequencies true unfitted_world
  = BaseCircuit.predict resistor_evaluator 0 two_frequencies false unfitted_world.
Proof.
  apply (predict_before_fit_ignores_use_initial resistor_evaluator 0
           unfitted_resistor two_frequencies unfitted_world);
    reflexivity.
Defined.
